(** * A shallow embedding of the Twitch mobile-web UI test harness

    The harness is a page-object layer over a remote browser driver.  What the
    code decides (which call is issued, in which order, with which arguments,
    which exception is caught and which one is re-raised) is embedded as
    executable definitions in a small state-and-exception monad.  What the
    browser, the clock and the random generator answer is left to oracles that
    see the history of calls issued so far, so every theorem holds for every
    behaviour of the outside world. *)

From Stdlib Require Import String Ascii List Bool Arith ZArith QArith Lia.
Import ListNotations.

Local Close Scope Q_scope.
Local Open Scope nat_scope.
Local Open Scope string_scope.
Local Open Scope list_scope.

(** ** Python values used by the harness *)

(** [selenium.webdriver.common.by.By]: the three strategies used by
    [Locators]. *)
Inductive By : Type := CSS_SELECTOR | XPATH | ID.

(** [tools/ui/base/locator.py]: the [Locator] dataclass. *)
Record Locator : Type := { by_ : By; value : string }.

Module Locators.

Definition css (value : string) : Locator := {| by_ := CSS_SELECTOR; value := value |}.

Definition xpath (value : string) : Locator := {| by_ := XPATH; value := value |}.

Definition id_ (value : string) : Locator := {| by_ := ID; value := value |}.

End Locators.

(** What a [locator] variable of the page actions can hold at run time: [None]
    (the default of the keyword argument), a [Locator] object, or the pair
    [(by, value)] that [__element] and [get_visible_element] build. *)
Inductive PyLocator : Type :=
| PyNone
| PyObj (l : Locator)
| PyTuple (b : By) (v : string).

(** An opaque handle of a resolved element. *)
Inductive WebElement : Type := Element (id : nat).

(** [selenium.webdriver.common.keys.Keys]: the two keys the code names. *)
Inductive Keys : Type := CONTROL | DELETE.

(** Text sent to an element: literal characters and special keys. *)
Inductive KeyPart : Type := Chars (s : string) | Key (k : Keys).

(** An f-string, kept as its parts: the literal text and the formatted
    values. *)
Inductive Part : Type :=
| Lit (s : string)
| FmtLocator (l : PyLocator)
| FmtChild (l : Locator)
| FmtSeconds (q : Q)
| FmtKeys (k : list KeyPart)
| FmtStr (s : string).

Definition message : Type := list Part.

(** The exception classes that the code raises, catches or lets through.
    [WebDriverException] stands for every error of the driver other than the
    two the code names (an invalid selector, a closed window, a lost
    session); [Exception] is the plain [Exception] the code raises itself;
    [AttributeError] and [IndexError] come from attribute access and
    indexing, [TypeError] from unpacking a value that is not a sequence. *)
Inductive exn : Type :=
| TimeoutException
| NoSuchElementException
| WebDriverException
| AssertionError (msg : message)
| Exception (msg : message)
| AttributeError
| IndexError
| TypeError.

Inductive result (A : Type) : Type :=
| Ret (a : A)
| Raise (e : exn).

Arguments Ret {A} a.
Arguments Raise {A} e.

(** ** Calls that leave the process *)

Module Selenium.

(** [selenium.webdriver.support.expected_conditions], each with the argument
    the code hands to it. *)
Inductive Condition : Type :=
| visibility_of_element_located (locator : PyLocator)
| presence_of_element_located (locator : PyLocator)
| element_to_be_clickable (locator : PyLocator)
| visibility_of_all_elements_located (locator : PyLocator)
| presence_of_all_elements_located (locator : PyLocator)
| invisibility_of_element_located (locator : PyLocator).

(** The steps of an [ActionChains] object. *)
Inductive ChainStep : Type :=
| move_to_element (e : WebElement)
| move_to_element_with_offset (e : WebElement) (x y : Z)
| chain_click (e : WebElement)
| chain_send_keys (s : string).

(** [webdriver.ChromeOptions]. *)
Record ChromeOptions : Type := {
  arguments : list string;
  experimental_options : list (string * (string * string))
}.

Inductive Call : Type :=
| until (timeout : Q) (c : Condition)
| find_element (parent : WebElement) (b : By) (v : string)
| find_elements (parent : WebElement) (b : By) (v : string)
| is_displayed (e : WebElement)
| get_attribute (e : WebElement) (name : string)
| text (e : WebElement)
| send_keys (e : WebElement) (keys : list KeyPart)
| click (e : WebElement)
| clear (e : WebElement)
| perform (chain : list ChainStep)
| execute_script (script : string) (args : list WebElement)
| switch_to_frame (e : WebElement)
| switch_to_default_content
| switch_to_alert_accept
| get (url : string)
| refresh
| quit
| save_screenshot (filename : string)
| sleep (secs : Q)
| ChromeDriverManager_install
| webdriver_Chrome (options : ChromeOptions).

(** The driver: for each kind of call, its outcome given the calls issued
    before it.  A call either returns or raises. *)
Record WebDriver : Type := {
  until_element : list Call -> Q -> Condition -> result WebElement;
  until_elements : list Call -> Q -> Condition -> result (list WebElement);
  until_true : list Call -> Q -> Condition -> result unit;
  child_of : list Call -> WebElement -> By -> string -> result WebElement;
  children_of : list Call -> WebElement -> By -> string -> result (list WebElement);
  displayed : list Call -> WebElement -> result bool;
  attribute : list Call -> WebElement -> string -> result (option string);
  text_of : list Call -> WebElement -> result string;
  command : list Call -> Call -> result unit
}.

End Selenium.

Import Selenium.

(** ** The monad: a trace of calls, the log, the number of random draws *)

Inductive Level : Type := INFO | ERROR.

Record State : Type := {
  trace : list Call;
  log : list (Level * message);
  draws : nat
}.

Definition M (A : Type) : Type := State -> result A * State.

Definition ret {A : Type} (a : A) : M A := fun s => (Ret a, s).

Definition raise {A : Type} (e : exn) : M A := fun s => (Raise e, s).

Definition bind {A B : Type} (m : M A) (k : A -> M B) : M B :=
  fun s =>
    match m s with
    | (Ret a, s') => k a s'
    | (Raise e, s') => (Raise e, s')
    end.

(** [try: m  except <classes>: handler]. *)
Definition try_except {A : Type} (m : M A) (catches : exn -> bool) (handler : M A) : M A :=
  fun s =>
    match m s with
    | (Ret a, s') => (Ret a, s')
    | (Raise e, s') => if catches e then handler s' else (Raise e, s')
    end.

Notation "x <- m ;; k" := (bind m (fun x => k))
  (at level 61, m at next level, right associativity).
Notation "m ;; k" := (bind m (fun _ => k))
  (at level 61, right associativity).

Definition issued (c : Call) (s : State) : State :=
  {| trace := trace s ++ [c]; log := log s; draws := draws s |}.

Definition logged (l : Level) (msg : message) (s : State) : State :=
  {| trace := trace s; log := log s ++ [(l, msg)]; draws := draws s |}.

Definition logging_info (msg : message) : M unit := fun s => (Ret tt, logged INFO msg s).

Definition logging_error (msg : message) : M unit := fun s => (Ret tt, logged ERROR msg s).

(** [except TimeoutException]. *)
Definition is_TimeoutException (e : exn) : bool :=
  match e with TimeoutException => true | _ => false end.

(** [except NoSuchElementException]. *)
Definition is_NoSuchElementException (e : exn) : bool :=
  match e with NoSuchElementException => true | _ => false end.

(** [except (TimeoutException, AssertionError)]. *)
Definition is_Timeout_or_Assertion (e : exn) : bool :=
  match e with TimeoutException | AssertionError _ => true | _ => false end.

Definition dq : string := String (ascii_of_nat 34) EmptyString.

(** ** [tools/ui/base/base_page.py]: class [BasePageActions] *)

(** The methods are embedded in the order of the file.  Left out are the four
    that no statement below touches and that take neither a locator nor an
    element: [page_title], [page_source], [get_execute_script_result] and
    [open_in_new_tab]. *)

Module BasePageActions.

Section Self.

(** [self.driver]. *)
Variable driver : WebDriver.

(** [self.timeout = 10]. *)
Definition self_timeout : Q := 10%Q.

(** [if timeout is None: timeout = self.timeout]. *)
Definition or_default (timeout : option Q) : Q :=
  match timeout with
  | None => self_timeout
  | Some t => t
  end.

(** [WebDriverWait(self.driver, timeout=timeout).until(condition)], by the
    kind of value the condition yields. *)
Definition WebDriverWait_until (timeout : Q) (c : Condition) : M WebElement :=
  fun s => (until_element driver (trace s) timeout c, issued (until timeout c) s).

Definition WebDriverWait_until_all (timeout : Q) (c : Condition) : M (list WebElement) :=
  fun s => (until_elements driver (trace s) timeout c, issued (until timeout c) s).

Definition WebDriverWait_until_true (timeout : Q) (c : Condition) : M unit :=
  fun s => (until_true driver (trace s) timeout c, issued (until timeout c) s).

(** A call whose value the code does not use. *)
Definition do (c : Call) : M unit :=
  fun s => (command driver (trace s) c, issued c s).

(** [(locator.by, locator.value)]: attribute access on [None] or on a tuple
    raises [AttributeError]. *)
Definition by_value (locator : PyLocator) : M PyLocator :=
  match locator with
  | PyObj l => ret (PyTuple (by_ l) (value l))
  | PyNone | PyTuple _ _ => raise AttributeError
  end.

(** [if not isinstance(locator, tuple): locator = (locator.by, locator.value)]. *)
Definition as_tuple (locator : PyLocator) : M PyLocator :=
  match locator with
  | PyTuple _ _ => ret locator
  | PyObj _ | PyNone => by_value locator
  end.

(** The [except TimeoutException] block shared by the wait helpers: build the
    message, log it when asked to, raise [AssertionError]. *)
Definition timed_out (error : message) (show_error_logs : bool) {A : Type} : M A :=
  (if show_error_logs then logging_error error else ret tt) ;;
  raise (AssertionError error).

Definition get_visible_element (locator : PyLocator) (timeout : option Q)
    (show_error_logs : bool) : M WebElement :=
  locator <- as_tuple locator ;;
  let timeout := or_default timeout in
  logging_info [Lit "Browser: Finding  element (visible) with locator "; FmtLocator locator] ;;
  try_except
    (WebDriverWait_until timeout (visibility_of_element_located locator))
    is_TimeoutException
    (timed_out [Lit "Cannot find visible element with locator "; FmtLocator locator;
                Lit " within "; FmtSeconds timeout; Lit " seconds"] show_error_logs).

(** The assignment [locator = (locator.by, locator.value)] is the first
    statement of the [try] block; it can raise [AttributeError] only, which
    [except TimeoutException] lets through, so it is written before the
    handler is installed. *)
Definition get_present_element (locator : PyLocator) (timeout : option Q)
    (show_error_logs : bool) : M WebElement :=
  let timeout := or_default timeout in
  logging_info [Lit "Browser: Finding element (present) with locator "; FmtLocator locator] ;;
  locator <- by_value locator ;;
  try_except
    (WebDriverWait_until timeout (presence_of_element_located locator))
    is_TimeoutException
    (timed_out [Lit "Cannot find present element with locator "; FmtLocator locator;
                Lit " within "; FmtSeconds timeout; Lit " seconds"] show_error_logs).

Definition get_clickable_element (locator : PyLocator) (timeout : option Q)
    (show_error_logs : bool) : M WebElement :=
  let timeout := or_default timeout in
  logging_info [Lit "Browser: Finding element (present) with locator "; FmtLocator locator] ;;
  try_except
    (WebDriverWait_until timeout (element_to_be_clickable locator))
    is_TimeoutException
    (timed_out [Lit "Cannot find clickable element with locator "; FmtLocator locator;
                Lit " within "; FmtSeconds timeout; Lit " seconds"] show_error_logs).

Definition get_visible_elements_list (locator : PyLocator) (timeout : option Q)
    (show_error_logs : bool) : M (list WebElement) :=
  let timeout := or_default timeout in
  logging_info [Lit "Browser: Finding multiple elements list (visible) with locator ";
                FmtLocator locator] ;;
  try_except
    (WebDriverWait_until_all timeout (visibility_of_all_elements_located locator))
    is_TimeoutException
    (timed_out [Lit "Cannot find list of visible elements with locator "; FmtLocator locator;
                Lit " within "; FmtSeconds timeout; Lit " seconds"] show_error_logs).

(** As in [get_present_element], the tuple is built inside the [try]. *)
Definition get_present_elements_list (locator : PyLocator) (timeout : option Q)
    (show_error_logs : bool) : M (list WebElement) :=
  let timeout := or_default timeout in
  logging_info [Lit "Browser: Finding multiple elements list (present) with locator ";
                FmtLocator locator] ;;
  locator <- by_value locator ;;
  try_except
    (WebDriverWait_until_all timeout (presence_of_all_elements_located locator))
    is_TimeoutException
    (timed_out [Lit "Cannot find list of present elements with locator "; FmtLocator locator;
                Lit " within "; FmtSeconds timeout; Lit " seconds"] show_error_logs).

Definition wait_elements_invisibility (locator : PyLocator) (timeout : option Q)
    (show_error_logs : bool) : M unit :=
  let timeout := or_default timeout in
  logging_info [Lit "Browser: Wait till single element is invisible"] ;;
  try_except
    (WebDriverWait_until_true timeout (invisibility_of_element_located locator))
    is_TimeoutException
    (timed_out [Lit "Element with locator "; FmtLocator locator;
                Lit " is visible after "; FmtSeconds timeout; Lit " seconds"] show_error_logs).

(** [__element]: the element itself when one is given, else the visible
    element found by the locator, else a plain [Exception]. *)
Definition __element (locator : PyLocator) (element : option WebElement)
    (timeout : option Q) (show_error_logs : bool) : M WebElement :=
  let timeout := or_default timeout in
  match element with
  | Some element => ret element
  | None =>
      match locator with
      | PyObj l =>
          get_visible_element (PyTuple (by_ l) (value l)) (Some timeout) show_error_logs
      | PyTuple _ _ =>
          get_visible_element locator (Some timeout) show_error_logs
      | PyNone => raise (Exception [Lit "Unknown way to define an element"])
      end
  end.

Definition get_child_element (child_locator : Locator) (base_element : option WebElement)
    (base_locator : PyLocator) (timeout : option Q) : M WebElement :=
  let timeout := or_default timeout in
  logging_info [Lit "Browser: Finding child element with it's locator "; FmtChild child_locator] ;;
  parent_el <- __element base_locator base_element (Some timeout) true ;;
  try_except
    (fun s => (child_of driver (trace s) parent_el (by_ child_locator) (value child_locator),
               issued (find_element parent_el (by_ child_locator) (value child_locator)) s))
    is_NoSuchElementException
    (let error := [Lit "Cannot find child element with locator "; FmtChild child_locator] in
     logging_error error ;; raise (AssertionError error)).

Definition get_child_elements_list (child_locator : Locator) (base_element : option WebElement)
    (base_locator : PyLocator) (timeout : option Q) : M (list WebElement) :=
  let timeout := or_default timeout in
  logging_info [Lit "Browser: Finding multiple child elements list with locator ";
                FmtChild child_locator] ;;
  parent_el <- __element base_locator base_element (Some timeout) true ;;
  try_except
    (fun s => (children_of driver (trace s) parent_el (by_ child_locator) (value child_locator),
               issued (find_elements parent_el (by_ child_locator) (value child_locator)) s))
    is_NoSuchElementException
    (let error := [Lit "Cannot find multiple child elements list with locator ";
                   FmtChild child_locator] in
     logging_error error ;; raise (AssertionError error)).

Definition get_element_attribute (attribute_name : string) (locator : PyLocator)
    (element : option WebElement) (timeout : option Q) : M (option string) :=
  let timeout := or_default timeout in
  el <- __element locator element (Some timeout) true ;;
  fun s => (attribute driver (trace s) el attribute_name, issued (get_attribute el attribute_name) s).

Definition get_text (locator : PyLocator) (element : option WebElement)
    (timeout : option Q) : M string :=
  let timeout := or_default timeout in
  el <- __element locator element (Some timeout) true ;;
  logging_info [Lit "Browser: Getting element text"] ;;
  fun s => (text_of driver (trace s) el, issued (text el) s).

Definition get_input_value (locator : PyLocator) (element : option WebElement)
    (timeout : option Q) : M (option string) :=
  let timeout := or_default timeout in
  el <- __element locator element (Some timeout) true ;;
  logging_info [Lit "Browser: Getting element's input value"] ;;
  get_element_attribute "value" PyNone (Some el) None.

Definition element_is_displayed (locator : PyLocator) (element : option WebElement)
    (timeout : option Q) : M bool :=
  let timeout := or_default timeout in
  logging_info [Lit "Browser: Checking that element is displayed"] ;;
  try_except
    (el <- __element locator element (Some timeout) false ;;
     fun s => (displayed driver (trace s) el, issued (is_displayed el) s))
    is_Timeout_or_Assertion
    (logging_info [Lit "Browser: Element is not found"] ;; ret false).

Definition element_is_present (locator : PyLocator) (timeout : option Q) : M bool :=
  let timeout := or_default timeout in
  logging_info [Lit "Browser: Checking that element is present in DOM with locator ";
                FmtLocator locator] ;;
  try_except
    (get_present_element locator (Some timeout) false ;;
     logging_info [Lit "Browser: Element is found"] ;;
     ret true)
    is_Timeout_or_Assertion
    (logging_info [Lit "Browser: Element is not found"] ;; ret false).

Definition element_is_absent (locator : PyLocator) (timeout : option Q) : M bool :=
  let timeout := or_default timeout in
  logging_info [Lit "Browser: Checking that element is absent in DOM with locator ";
                FmtLocator locator] ;;
  try_except
    (wait_elements_invisibility locator (Some timeout) false ;;
     logging_info [Lit "Browser: Element is absent"] ;;
     ret true)
    is_Timeout_or_Assertion
    (logging_info [Lit "Browser: Element is present"] ;; ret false).

(** Here the timeout is handed on as it is; [get_clickable_element] applies
    the default. *)
Definition element_is_clickable (locator : PyLocator) (timeout : option Q) : M bool :=
  logging_info [Lit "Browser: Checking that element is clickable with locator ";
                FmtLocator locator] ;;
  try_except
    (get_clickable_element locator timeout false ;;
     logging_info [Lit "Browser: Element is clickable"] ;;
     ret true)
    is_Timeout_or_Assertion
    (logging_info [Lit "Browser: Element is not clickable"] ;; ret false).

Definition input_to_element (locator : PyLocator) (element : option WebElement)
    (input_text : list KeyPart) (timeout : option Q) (log_input : bool) : M unit :=
  let timeout := or_default timeout in
  el <- __element locator element (Some timeout) true ;;
  (if log_input
   then logging_info [Lit "Browser: making input to element: '"; FmtKeys input_text; Lit "'"]
   else logging_info [Lit "Browser: making input to element: (hidden input)"]) ;;
  do (send_keys el input_text).

Definition accept_alert : M unit :=
  logging_info [Lit "Browser: Accepting alert"] ;;
  do switch_to_alert_accept.

Definition click_keyboard_button (keyboard_button : string) : M unit :=
  logging_info [Lit "Browser: Click Keyboard button"] ;;
  do (perform [chain_send_keys keyboard_button]).

Definition clear_textbox (locator : PyLocator) (element : option WebElement)
    (timeout : option Q) : M unit :=
  let timeout := or_default timeout in
  el <- __element locator element (Some timeout) true ;;
  logging_info [Lit "Browser: Clearing element's input value"] ;;
  do (clear el).

Definition clear_textbox_with_keyboard (locator : PyLocator) (element : option WebElement)
    (timeout : option Q) : M unit :=
  let timeout := or_default timeout in
  el <- __element locator element (Some timeout) true ;;
  logging_info [Lit "Browser: Clearing element's input value with keyboard"] ;;
  input_to_element PyNone (Some el) [Key CONTROL; Chars " + a"] None false ;;
  input_to_element PyNone (Some el) [Key DELETE] None false.

Definition navigate (url : string) : M unit :=
  logging_info [Lit "Browser: Opening URL "; FmtStr url] ;;
  do (get url).

Definition refresh_current_screen : M unit :=
  logging_info [Lit "Browser: Refreshing current screen"] ;;
  do refresh.

Definition switch_to_frame (locator : PyLocator) (element : option WebElement)
    (timeout : option Q) : M unit :=
  let timeout := or_default timeout in
  iframe_el <- __element locator element (Some timeout) true ;;
  logging_info [Lit "Browser: Switching to iframe"] ;;
  do (Selenium.switch_to_frame iframe_el).

Definition switch_to_default_content : M unit :=
  logging_info [Lit "Browser: Switching to default content"] ;;
  do Selenium.switch_to_default_content.

Definition execute_script (script : string) (args : list WebElement) : M unit :=
  logging_info [Lit "Browser: Executing script: "; FmtStr script] ;;
  do (Selenium.execute_script script args).

Definition click_element (locator : PyLocator) (element : option WebElement)
    (timeout : option Q) : M unit :=
  let timeout := or_default timeout in
  el <- __element locator element (Some timeout) true ;;
  logging_info [Lit "Browser: Clicking element"] ;;
  do (click el).

Definition click_outside : M unit :=
  logging_info [Lit "Browser: Click outside"] ;;
  click_element (PyObj (Locators.css "body")) None None.

(** Both timeouts reach [__element] as they were given. *)
Definition moveto_and_click_element (locator_to_move : PyLocator)
    (element_to_move : option WebElement) (timeout_to_move : option Q)
    (locator_to_click : PyLocator) (element_to_click : option WebElement)
    (timeout_to_click : option Q) : M unit :=
  element_to_move <- __element locator_to_move element_to_move timeout_to_move true ;;
  element_to_click <- __element locator_to_click element_to_click timeout_to_click true ;;
  logging_info [Lit "Browser: Move to element A (hover) and click element B"] ;;
  do (perform [move_to_element element_to_move; chain_click element_to_click]).

Definition moveto_element (locator_to_move : PyLocator) (element_to_move : option WebElement)
    (timeout : option Q) : M unit :=
  let timeout := or_default timeout in
  element_to_move <- __element locator_to_move element_to_move (Some timeout) true ;;
  logging_info [Lit "Browser: Moving to element (hover)"] ;;
  do (perform [move_to_element element_to_move]).

Definition moveto_element_offset (locator_to_move : PyLocator)
    (element_to_move : option WebElement) (timeout : option Q) (x_offset y_offset : Z) : M unit :=
  element_to_move <- __element locator_to_move element_to_move timeout true ;;
  logging_info [Lit "Browser: Moving to element with offset (hover)"] ;;
  do (perform [move_to_element_with_offset element_to_move x_offset y_offset]).

Definition scroll_into_element_center (locator : PyLocator) (element : option WebElement)
    (timeout : option Q) : M unit :=
  let timeout := or_default timeout in
  element <- __element locator element (Some timeout) true ;;
  execute_script "arguments[0].scrollIntoView({block: 'center'});" [element] ;;
  logging_info [Lit "Browser: Scroll to element center"].

Definition scroll_down : M unit :=
  execute_script "window.scrollBy(0, window.innerHeight);" [].

End Self.

End BasePageActions.

(** ** The standard library calls the harness makes *)

(** [time.sleep(secs)]: recorded in the trace, never raises. *)
Definition time_sleep (secs : Q) : M unit := fun s => (Ret tt, issued (sleep secs) s).

Module random.

Definition drew (s : State) : State :=
  {| trace := trace s; log := log s; draws := S (draws s) |}.

(** [random.choice(seq)]: [IndexError] on an empty sequence, else
    [seq[self._randbelow(len(seq))]].  [randbelow k n] is what the generator
    answers at its [k]-th draw when asked for a number below [n]; indexing out
    of range raises [IndexError], as [seq[i]] does. *)
Definition choice {A : Type} (randbelow : nat -> nat -> nat) (seq : list A) : M A :=
  fun s =>
    match seq with
    | [] => (Raise IndexError, s)
    | _ :: _ =>
        match nth_error seq (randbelow (draws s) (length seq)) with
        | Some x => (Ret x, drew s)
        | None => (Raise IndexError, drew s)
        end
    end.

End random.

Module re.

(** [\w] of a [str] pattern on the code points below 256: the characters for
    which [str.isalnum()] holds, and the underscore.  Below 128 these are
    [A-Za-z0-9_]; above, the Latin-1 letters, superscript digits and
    fractions. *)
Definition is_word (c : ascii) : bool :=
  let n := nat_of_ascii c in
  (((48 <=? n) && (n <=? 57)) || ((65 <=? n) && (n <=? 90)) || (n =? 95)
   || ((97 <=? n) && (n <=? 122))
   || (n =? 170) || (n =? 178) || (n =? 179) || (n =? 181) || (n =? 185) || (n =? 186)
   || ((188 <=? n) && (n <=? 190)) || ((192 <=? n) && (n <=? 214))
   || ((216 <=? n) && (n <=? 246)) || (248 <=? n))%nat.

(** The scan of [re.sub(r'\W+', '_', s)]: a character matched by [\w] is
    copied; the first character of a run matched by [\W+] puts one underscore,
    the rest of the run ([in_run]) puts nothing. *)
Fixpoint sub_scan (in_run : bool) (s : string) : string :=
  match s with
  | EmptyString => EmptyString
  | String c rest =>
      if is_word c then String c (sub_scan false rest)
      else if in_run then sub_scan true rest
      else String "_" (sub_scan true rest)
  end.

(** [re.sub(r'\W+', '_', s)]. *)
Definition sub_nonword_underscore (s : string) : string := sub_scan false s.

End re.

(** ** [tools/ui/screens/home_page.py]: class [HomePage] *)

Module HomePage.

Import BasePageActions.

Definition search_button : Locator :=
  Locators.css ("a[aria-label=" ++ dq ++ "Search" ++ dq ++ "]")%string.

Definition page_logo : Locator :=
  Locators.css ("a[interactioncontent=" ++ dq ++ "logo" ++ dq ++ "]")%string.

Definition search_field : Locator :=
  Locators.css ("input[type=" ++ dq ++ "search" ++ dq ++ "]")%string.

Definition search_result_elements : Locator :=
  Locators.xpath ("//*[starts-with(@class, " ++ dq ++ "ScAspectSpacer-sc-" ++ dq ++ ")]/parent::div")%string.

Definition stream_list_elements : Locator :=
  Locators.xpath ("//*[starts-with(@class, " ++ dq ++ "tw-image" ++ dq ++ ")]/parent::div")%string.

Definition stream_live_label : Locator :=
  Locators.css "div[class^='ScChannelStatusTextIndicator']".

Definition start_watching_button : Locator :=
  Locators.css ("button[data-a-target=" ++ dq
                ++ "content-classification-gate-overlay-start-watching-button" ++ dq ++ "]")%string.

Definition folow_button : Locator :=
  Locators.css ("button[data-a-target=" ++ dq ++ "game-directory-follow-button" ++ dq ++ "]")%string.

Section Self.

Variable driver : WebDriver.

(** The generator behind the module [random]. *)
Variable randbelow : nat -> nat -> nat.

Definition click_search_button : M unit :=
  click_element driver (PyObj search_button) None None.

Definition is_page_loaded : M bool :=
  element_is_displayed driver (PyObj page_logo) None None.

(** [els[0]] raises [IndexError] on an empty list. *)
Definition input_search_field (value : string) : M unit :=
  input_to_element driver (PyObj search_field) None [Chars value] None false ;;
  els <- get_present_elements_list driver (PyObj search_result_elements) (Some 3%Q) true ;;
  match els with
  | [] => raise IndexError
  | el :: _ => click_element driver PyNone (Some el) None
  end.

(** [for _ in range(n): body]. *)
Fixpoint for_range (n : nat) (body : M unit) : M unit :=
  match n with
  | O => ret tt
  | S n' => body ;; for_range n' body
  end.

(** [range(times)] is empty for a negative [times]. *)
Definition scroll_home_screen (times : Z) : M unit :=
  get_present_element driver (PyObj folow_button) (Some 7%Q) true ;;
  time_sleep 2%Q ;;
  for_range (Z.to_nat times) (scroll_down driver).

Definition click_random_stream : M unit :=
  els <- get_present_elements_list driver (PyObj stream_list_elements) (Some 3%Q) true ;;
  random_el <- random.choice randbelow els ;;
  scroll_into_element_center driver PyNone (Some random_el) None ;;
  click_element driver PyNone (Some random_el) None.

Definition wait_video_starting : M unit :=
  clicked <- element_is_displayed driver (PyObj start_watching_button) None (Some 5%Q) ;;
  (if clicked : bool
   then click_element driver (PyObj start_watching_button) None None
   else ret tt) ;;
  get_present_element driver (PyObj stream_live_label) None true ;;
  get_visible_element driver (PyObj stream_live_label) None true ;;
  ret tt.

End Self.

End HomePage.

(** ** [tools/ui/base/browser.py]: class [Browser] *)

Module Browser.

Section Self.

Variable driver : WebDriver.

(** [str.lower()] on the letters [A-Z]; the result is only compared with
    [chrome]. *)
Definition lower_char (c : ascii) : ascii :=
  let n := nat_of_ascii c in
  if ((65 <=? n) && (n <=? 90))%nat then ascii_of_nat (n + 32) else c.

Fixpoint lower (s : string) : string :=
  match s with
  | EmptyString => EmptyString
  | String c rest => String (lower_char c) (lower rest)
  end.

(** [if device_name:] holds for a string that is not empty. *)
Definition truthy_str (s : option string) : bool :=
  match s with
  | None | Some EmptyString => false
  | Some (String _ _) => true
  end.

Definition add_experimental_option (name : string) (v : string * string)
    (options : ChromeOptions) : ChromeOptions :=
  {| arguments := arguments options;
     experimental_options := experimental_options options ++ [(name, v)] |}.

Definition add_argument (argument : string) (options : ChromeOptions) : ChromeOptions :=
  {| arguments := arguments options ++ [argument];
     experimental_options := experimental_options options |}.

Definition chrome (is_headless : bool) (device_name : option string) : M unit :=
  logging_info [Lit "Browser setup: Chrome: Starting browser"] ;;
  let options := {| arguments := []; experimental_options := [] |} in
  options <-
    (match device_name with
     | Some (String c name) =>
         let options :=
           add_experimental_option "mobileEmulation" ("deviceName", String c name) options in
         logging_info [Lit "Running tests in mobile emulation for "; FmtStr (String c name)] ;;
         ret options
     | Some EmptyString | None => ret options
     end) ;;
  options <-
    (if is_headless
     then logging_info [Lit "Browser setup: Chrome: Headless mode enabled"] ;;
          ret (add_argument "--headless" options)
     else ret options) ;;
  BasePageActions.do driver ChromeDriverManager_install ;;
  BasePageActions.do driver (webdriver_Chrome options).

Definition browser_driver (browser_name : string) (is_headless : bool)
    (device_name : option string) : M unit :=
  if String.eqb (lower browser_name) "chrome"
  then chrome is_headless device_name
  else logging_error [Lit "Browser: Unsupported browser "; FmtStr browser_name] ;;
       raise (Exception [Lit "Unsupported browser "; FmtStr browser_name]).

End Self.

End Browser.

(** ** [conftest.py]: options and fixtures *)

(** A session is taken for one given device: the hook that enumerates the
    devices of [config/devices_config.json] is not embedded, and the
    environment table stands for the loaded [config/environment_config.json]. *)

Module conftest.

(** The values an option can take. *)
Inductive PyVal : Type := VNone | VBool (b : bool) | VStr (s : string).

(** [str(v)], as an f-string formats it. *)
Definition py_str (v : PyVal) : string :=
  match v with
  | VNone => "None"
  | VBool true => "True"
  | VBool false => "False"
  | VStr s => s
  end.

(** Python truth value. *)
Definition truthy (v : PyVal) : bool :=
  match v with
  | VNone => false
  | VBool b => b
  | VStr EmptyString => false
  | VStr (String _ _) => true
  end.

Inductive Action : Type := store | store_true.

Record OptionDef : Type := { opt_name : string; action : Action; default : PyVal }.

(** The three [parser.addoption] calls. *)
Definition pytest_addoption : list OptionDef :=
  [ {| opt_name := "--environment"; action := store; default := VStr "staging" |};
    {| opt_name := "--device_name"; action := store; default := VNone |};
    {| opt_name := "--is_local"; action := store_true; default := VBool true |} ].

Definition Namespace : Type := list (string * PyVal).

Definition defaults (defs : list OptionDef) : Namespace :=
  map (fun d => (opt_name d, default d)) defs.

Fixpoint set_option (name : string) (v : PyVal) (ns : Namespace) : Namespace :=
  match ns with
  | [] => []
  | (k, x) :: rest =>
      if String.eqb k name then (k, v) :: rest else (k, x) :: set_option name v rest
  end.

(** [config.getoption(name)]. *)
Definition getoption (ns : Namespace) (name : string) : PyVal :=
  match find (fun kv => String.eqb (fst kv) name) ns with
  | Some (_, v) => v
  | None => VNone
  end.

(** A token [--name=value] split at its first equals sign. *)
Fixpoint split_eq (tok : string) : string * option string :=
  match tok with
  | EmptyString => (EmptyString, None)
  | String c rest =>
      if Ascii.eqb c "="%char then (EmptyString, Some rest)
      else let (k, v) := split_eq rest in (String c k, v)
  end.

Definition looks_like_flag (tok : string) : bool :=
  match tok with
  | String c _ => Ascii.eqb c "-"%char
  | EmptyString => false
  end.

(** The command line, read the way [argparse] reads the declared options:
    [store] takes the value after the equals sign or the next token,
    [store_true] takes no value and sets [True]; a missing value or a value
    given to a [store_true] flag is a usage error ([None]).  Tokens that name
    none of the declared options (test paths, options of the runner) are
    passed over. *)
Fixpoint parse_args (defs : list OptionDef) (argv : list string) (ns : Namespace)
    : option Namespace :=
  match argv with
  | [] => Some ns
  | tok :: rest =>
      let (name, inline) := split_eq tok in
      match find (fun d => String.eqb (opt_name d) name) defs with
      | None => parse_args defs rest ns
      | Some d =>
          match action d, inline with
          | store_true, None => parse_args defs rest (set_option name (VBool true) ns)
          | store_true, Some _ => None
          | store, Some v => parse_args defs rest (set_option name (VStr v) ns)
          | store, None =>
              match rest with
              | [] => None
              | v :: rest' =>
                  if looks_like_flag v then None
                  else parse_args defs rest' (set_option name (VStr v) ns)
              end
          end
      end
  end.

(** The configuration of a run started with the arguments [argv]. *)
Definition config_of (argv : list string) : option Namespace :=
  parse_args pytest_addoption argv (defaults pytest_addoption).

(** [config/environment_config.json], once loaded. *)
Definition EnvConfig : Type := list (string * list (string * string)).

Definition dict_get {V : Type} (d : list (string * V)) (key : string) (dflt : V) : V :=
  match find (fun kv => String.eqb (fst kv) key) d with
  | Some (_, v) => v
  | None => dflt
  end.

(** [env_config.get(environment, {})]. *)
Definition load_environment_config (env_config : EnvConfig) (environment : PyVal)
    : list (string * string) :=
  match environment with
  | VStr name => dict_get env_config name []
  | VNone | VBool _ => []
  end.

(** The dictionary the fixture [args] returns. *)
Record Args : Type := {
  args_environment : PyVal;
  args_device_name : PyVal;
  args_is_local : PyVal;
  args_url : string
}.

Definition args (env_config : EnvConfig) (config : Namespace) : Args :=
  let environment := getoption config "--environment" in
  let env := load_environment_config env_config environment in
  {| args_environment := environment;
     args_device_name := getoption config "--device_name";
     args_is_local := getoption config "--is_local";
     args_url := dict_get env "url" "" |}.

(** The dataclass [UI]; its [home_page] and [driver] are the driver of the
    section the test is run in. *)
Record UI : Type := {
  device_name : string;
  environment : PyVal;
  url : string
}.

Definition ui (a : Args) (device_name : string) : UI :=
  {| device_name := device_name; environment := args_environment a; url := args_url a |}.

Section Fixtures.

Variable driver : WebDriver.

(** The fixture [driver] up to its [yield]. *)
Definition driver_before_yield (device_name : string) (config : Namespace) (a : Args) : M unit :=
  let is_local := getoption config "--is_local" in
  Browser.browser_driver driver "chrome" (negb (truthy is_local)) (Some device_name) ;;
  BasePageActions.do driver (get (args_url a)).

(** The fixture [driver] after its [yield]. *)
Definition driver_after_yield : M unit :=
  BasePageActions.do driver quit.

(** What the runner reports of one test: the outcome of the setup, of the test
    body and of the teardown. *)
Record Report : Type := {
  setup_outcome : result unit;
  call_outcome : option (result unit);
  teardown_outcome : option (result unit)
}.

(** How the runner drives a generator fixture: the code before the [yield],
    then the test, then the code after the [yield] whatever the test did.
    When the code before the [yield] raises, the test is not run and the
    generator is not resumed. *)
Definition run_with_fixture (before_yield : M unit) (after_yield : M unit) (test : M unit)
    (s : State) : Report * State :=
  match before_yield s with
  | (Raise e, s1) =>
      ({| setup_outcome := Raise e; call_outcome := None; teardown_outcome := None |}, s1)
  | (Ret _, s1) =>
      let (r, s2) := test s1 in
      let (t, s3) := after_yield s2 in
      ({| setup_outcome := Ret tt; call_outcome := Some r; teardown_outcome := Some t |}, s3)
  end.

(** One test session for one device: the fixtures [args], [driver] and [ui],
    then the test. *)
Definition session (env_config : EnvConfig) (config : Namespace) (device : string)
    (test : UI -> M unit) (s : State) : Report * State :=
  let a := args env_config config in
  run_with_fixture (driver_before_yield device config a) driver_after_yield
    (test (ui a device)) s.

End Fixtures.

End conftest.

(** ** [tests/test_twitch.py]: class [TestTwitchSearch] *)

Module TestTwitchSearch.

Import conftest.

(** [f"{device_name}_{environment}_{now}"]. *)
Definition filename (device_name environment now : string) : string :=
  (device_name ++ "_" ++ environment ++ "_" ++ now)%string.

(** [re.sub(r'\W+', '_', filename)]. *)
Definition cleaned_filename (device_name environment now : string) : string :=
  re.sub_nonword_underscore (filename device_name environment now).

(** [f"{cleaned_filename}.png"]. *)
Definition screenshot_name (device_name environment now : string) : string :=
  (cleaned_filename device_name environment now ++ ".png")%string.

Section Self.

Variable driver : WebDriver.

Variable randbelow : nat -> nat -> nat.

(** [str(datetime.datetime.now())], given the calls issued so far. *)
Variable now : list Call -> string.

Definition test_search_starcraft_streamer (ui : UI) : M unit :=
  loaded <- HomePage.is_page_loaded driver ;;
  (if loaded : bool
   then ret tt
   else raise (AssertionError [Lit "Twitch home page did not load properly."])) ;;
  HomePage.click_search_button driver ;;
  HomePage.input_search_field driver "StarCraft II" ;;
  HomePage.scroll_home_screen driver 2 ;;
  HomePage.click_random_stream driver randbelow ;;
  HomePage.wait_video_starting driver ;;
  fun s =>
    BasePageActions.do driver
      (save_screenshot
         (screenshot_name (device_name ui) (py_str (environment ui)) (now (trace s)))) s.

End Self.

End TestTwitchSearch.

(** * Vocabulary of the statements *)

(** The exception a call ended with, if it raised. *)
Definition raised {A : Type} (r : result A) : option exn :=
  match r with
  | Ret _ => None
  | Raise e => Some e
  end.

(** A state with nothing issued and nothing logged. *)
Definition initial : State := {| trace := []; log := []; draws := 0 |}.

(** The [(by, value)] pair of a [Locator]. *)
Definition tuple_of (l : Locator) : PyLocator := PyTuple (by_ l) (value l).

(** A locator value stands for [l]: it is the object or its pair. *)
Definition denotes (a : PyLocator) (l : Locator) : Prop :=
  a = PyObj l \/ a = tuple_of l.

(** The exception of the usage error of [__element]. *)
Definition usage_error : exn := Exception [Lit "Unknown way to define an element"].

(** The boolean probes, called with a [Locator]. *)
Inductive Probe : Type := Displayed | Present | Clickable | Absent.

Definition run_probe (driver : WebDriver) (p : Probe) (l : Locator) (timeout : option Q)
    : M bool :=
  match p with
  | Displayed => BasePageActions.element_is_displayed driver (PyObj l) None timeout
  | Present => BasePageActions.element_is_present driver (PyObj l) timeout
  | Clickable => BasePageActions.element_is_clickable driver (PyObj l) timeout
  | Absent => BasePageActions.element_is_absent driver (PyObj l) timeout
  end.

(** The condition a probe waits for. *)
Definition probe_condition (p : Probe) (l : Locator) : Condition :=
  match p with
  | Displayed => visibility_of_element_located (tuple_of l)
  | Present => presence_of_element_located (tuple_of l)
  | Clickable => element_to_be_clickable (PyObj l)
  | Absent => invisibility_of_element_located (PyObj l)
  end.

(** How the wait under a probe ends, after the calls [tr]. *)
Definition probe_wait (driver : WebDriver) (p : Probe) (l : Locator) (timeout : Q)
    (tr : list Call) : option exn :=
  match p with
  | Displayed | Present | Clickable =>
      raised (until_element driver tr timeout (probe_condition p l))
  | Absent => raised (until_true driver tr timeout (probe_condition p l))
  end.

(** The resolve operations, called with a [Locator]; the value is dropped so
    that they share a type. *)
Inductive Resolve : Type :=
| Visible | PresentOne | ClickableOne | VisibleList | PresentList | Invisible.

Definition run_resolve (driver : WebDriver) (r : Resolve) (l : Locator) (timeout : option Q)
    (show_error_logs : bool) : M unit :=
  match r with
  | Visible =>
      BasePageActions.get_visible_element driver (PyObj l) timeout show_error_logs ;; ret tt
  | PresentOne =>
      BasePageActions.get_present_element driver (PyObj l) timeout show_error_logs ;; ret tt
  | ClickableOne =>
      BasePageActions.get_clickable_element driver (PyObj l) timeout show_error_logs ;; ret tt
  | VisibleList =>
      BasePageActions.get_visible_elements_list driver (PyObj l) timeout show_error_logs ;; ret tt
  | PresentList =>
      BasePageActions.get_present_elements_list driver (PyObj l) timeout show_error_logs ;; ret tt
  | Invisible =>
      BasePageActions.wait_elements_invisibility driver (PyObj l) timeout show_error_logs
  end.

Definition resolve_locator (r : Resolve) (l : Locator) : PyLocator :=
  match r with
  | Visible | PresentOne | PresentList => tuple_of l
  | ClickableOne | VisibleList | Invisible => PyObj l
  end.

Definition resolve_condition (r : Resolve) (l : Locator) : Condition :=
  match r with
  | Visible => visibility_of_element_located (resolve_locator r l)
  | PresentOne => presence_of_element_located (resolve_locator r l)
  | ClickableOne => element_to_be_clickable (resolve_locator r l)
  | VisibleList => visibility_of_all_elements_located (resolve_locator r l)
  | PresentList => presence_of_all_elements_located (resolve_locator r l)
  | Invisible => invisibility_of_element_located (resolve_locator r l)
  end.

Definition resolve_wait (driver : WebDriver) (r : Resolve) (l : Locator) (timeout : Q)
    (tr : list Call) : option exn :=
  match r with
  | Visible | PresentOne | ClickableOne =>
      raised (until_element driver tr timeout (resolve_condition r l))
  | VisibleList | PresentList =>
      raised (until_elements driver tr timeout (resolve_condition r l))
  | Invisible => raised (until_true driver tr timeout (resolve_condition r l))
  end.

(** The number of [quit] calls in a trace. *)
Definition is_quit (c : Call) : bool :=
  match c with
  | quit => true
  | _ => false
  end.

Definition quits (tr : list Call) : nat := length (filter is_quit tr).

(** The hover-and-click chain is the only [perform] of
    [moveto_and_click_element]. *)
Definition is_perform (c : Call) : bool :=
  match c with
  | perform _ => true
  | _ => false
  end.

Definition is_until (c : Call) : bool :=
  match c with
  | until _ _ => true
  | _ => false
  end.

(** The locator a condition was built with. *)
Definition condition_locator (c : Condition) : PyLocator :=
  match c with
  | visibility_of_element_located l
  | presence_of_element_located l
  | element_to_be_clickable l
  | visibility_of_all_elements_located l
  | presence_of_all_elements_located l
  | invisibility_of_element_located l => l
  end.

Definition is_pair (l : PyLocator) : bool :=
  match l with
  | PyTuple _ _ => true
  | PyObj _ | PyNone => false
  end.

(** What selenium makes of the answers of a page.  Its conditions unpack
    their locator, [find_element( *locator )], so a condition built with
    anything but a pair ends the wait with [TypeError] at the first poll; and
    [WebDriverWait.until] returns a value only when it is truthy, so a list
    of elements that stays empty ends in the timeout.  Everything else is
    the answer of the page. *)
Definition selenium (page : WebDriver) : WebDriver :=
  {| until_element := fun tr timeout c =>
       if is_pair (condition_locator c) then until_element page tr timeout c
       else Raise TypeError;
     until_elements := fun tr timeout c =>
       if is_pair (condition_locator c)
       then match until_elements page tr timeout c with
            | Ret [] => Raise TimeoutException
            | answer => answer
            end
       else Raise TypeError;
     until_true := fun tr timeout c =>
       if is_pair (condition_locator c) then until_true page tr timeout c
       else Raise TypeError;
     child_of := child_of page;
     children_of := children_of page;
     displayed := displayed page;
     attribute := attribute page;
     text_of := text_of page;
     command := command page |}.

(** Drivers used to run the definitions on concrete inputs: selenium over a
    page that answers as described. *)

(** Every wait finds element 1 (or the elements 1 and 2), every call
    succeeds. *)
Definition ready_driver : WebDriver :=
  selenium
    {| until_element := fun _ _ _ => Ret (Element 1);
       until_elements := fun _ _ _ => Ret [Element 1; Element 2];
       until_true := fun _ _ _ => Ret tt;
       child_of := fun _ _ _ _ => Ret (Element 3);
       children_of := fun _ _ _ _ => Ret [Element 3];
       displayed := fun _ _ => Ret true;
       attribute := fun _ _ _ => Ret None;
       text_of := fun _ _ => Ret EmptyString;
       command := fun _ _ => Ret tt |}.

(** Every wait runs into its timeout. *)
Definition timing_out_driver : WebDriver :=
  selenium
    {| until_element := fun _ _ _ => Raise TimeoutException;
       until_elements := fun _ _ _ => Raise TimeoutException;
       until_true := fun _ _ _ => Raise TimeoutException;
       child_of := fun _ _ _ _ => Raise NoSuchElementException;
       children_of := fun _ _ _ _ => Ret [];
       displayed := fun _ _ => Ret false;
       attribute := fun _ _ _ => Ret None;
       text_of := fun _ _ => Ret EmptyString;
       command := fun _ _ => Ret tt |}.

(** The session is gone: every call ends with an error of the driver that is
    not a timeout. *)
Definition broken_driver : WebDriver :=
  selenium
    {| until_element := fun _ _ _ => Raise WebDriverException;
       until_elements := fun _ _ _ => Raise WebDriverException;
       until_true := fun _ _ _ => Raise WebDriverException;
       child_of := fun _ _ _ _ => Raise WebDriverException;
       children_of := fun _ _ _ _ => Raise WebDriverException;
       displayed := fun _ _ => Raise WebDriverException;
       attribute := fun _ _ _ => Raise WebDriverException;
       text_of := fun _ _ => Raise WebDriverException;
       command := fun _ _ => Raise WebDriverException |}.


(** The element with the selector [#menu] is found, no other one is. *)
Definition menu_only_driver : WebDriver :=
  selenium
    {| until_element := fun _ _ c =>
         match c with
         | visibility_of_element_located (PyTuple CSS_SELECTOR v) =>
             if String.eqb v "#menu" then Ret (Element 1) else Raise TimeoutException
         | _ => Raise TimeoutException
         end;
       until_elements := fun _ _ _ => Raise TimeoutException;
       until_true := fun _ _ _ => Raise TimeoutException;
       child_of := fun _ _ _ _ => Raise NoSuchElementException;
       children_of := fun _ _ _ _ => Ret [];
       displayed := fun _ _ => Ret true;
       attribute := fun _ _ _ => Ret None;
       text_of := fun _ _ => Ret EmptyString;
       command := fun _ _ => Ret tt |}.

(** The two scripts the page actions run, and the two waits of the home
    page that the statements name. *)
Definition scroll_center_script : string := "arguments[0].scrollIntoView({block: 'center'});".
Definition scroll_by_script : string := "window.scrollBy(0, window.innerHeight);".
Definition landmark_wait : Call :=
  until 7%Q (presence_of_element_located (tuple_of HomePage.folow_button)).

(** ** Vocabulary for the random draw *)






(** ** Vocabulary for the screenshot name *)

(** Every character of [s] passes the test [p]. *)
Fixpoint all_chars (p : ascii -> bool) (s : string) : bool :=
  match s with
  | EmptyString => true
  | String c rest => p c && all_chars p rest
  end.

(** The code points below 128. *)
Definition is_ascii (c : ascii) : bool := (nat_of_ascii c <? 128)%nat.

(** The class [A-Za-z0-9]. *)
Definition is_ascii_alnum (c : ascii) : bool :=
  let n := nat_of_ascii c in
  (((48 <=? n) && (n <=? 57)) || ((65 <=? n) && (n <=? 90)) || ((97 <=? n) && (n <=? 122)))%nat.

(** The class [A-Za-z0-9_]. *)
Definition in_name_class (c : ascii) : bool :=
  is_ascii_alnum c || Ascii.eqb c "_"%char.

Definition non_word (c : ascii) : bool := negb (re.is_word c).

(** [s] is empty or begins with a character matched by [\w]. *)
Definition begins_with_word (s : string) : bool :=
  match s with
  | EmptyString => true
  | String c _ => re.is_word c
  end.

(** Follows the words of the specification, for comparison with [re.sub]:
    every maximal run of characters that are not alphanumeric becomes one
    underscore. *)
Fixpoint collapse_scan (in_run : bool) (s : string) : string :=
  match s with
  | EmptyString => EmptyString
  | String c rest =>
      if is_ascii_alnum c then String c (collapse_scan false rest)
      else if in_run then collapse_scan true rest
      else String "_" (collapse_scan true rest)
  end.

Definition collapse_non_alphanumeric (s : string) : string := collapse_scan false s.

(** The character with code 233, the letter e with an acute accent. *)
Definition e_acute : ascii := ascii_of_nat 233.

(** ** Vocabulary for the browser options *)

(** The options [Browser.chrome] builds when it is not asked for a headless
    browser, and what it logs then. *)
Definition options_without_headless (device : option string) : ChromeOptions :=
  match device with
  | Some (String c name) =>
      {| arguments := [];
         experimental_options := [("mobileEmulation", ("deviceName", String c name))] |}
  | Some EmptyString | None => {| arguments := []; experimental_options := [] |}
  end.

Definition chrome_log_without_headless (device : option string) : list (Level * message) :=
  (INFO, [Lit "Browser setup: Chrome: Starting browser"])
  :: match device with
     | Some (String c name) =>
         [(INFO, [Lit "Running tests in mobile emulation for "; FmtStr (String c name)])]
     | Some EmptyString | None => []
     end.

(** The log entry of the headless branch. *)
Definition headless_log_entry : Level * message :=
  (INFO, [Lit "Browser setup: Chrome: Headless mode enabled"]).

(** ** Vocabulary for the session *)

(** A computation that never asks the driver to quit. *)
Definition never_quits {A : Type} (m : M A) : Prop :=
  forall s : State, quits (trace (snd (m s))) = quits (trace s).

(** A configuration file with the staging environment. *)
Definition sample_env_config : conftest.EnvConfig :=
  [("staging", [("url", "https://m.twitch.tv")])].

(** ** [conftest.py]: the devices a run is parametrized with *)

Module devices.

Import conftest.

(** [config/devices_config.json] once loaded: a list of records. *)
Definition DevicesConfig : Type := list (list (string * string)).

(** The two ways the enumeration of the devices can fail: the file cannot be
    opened or parsed, or a record has no [device_name] key. *)
Inductive Failure : Type := LoadError | KeyError.

(** [[device['device_name'] for device in devices]]: the first record without
    the key ends the comprehension with [KeyError]. *)
Fixpoint device_names (devices : DevicesConfig) : Failure + list PyVal :=
  match devices with
  | [] => inr []
  | device :: rest =>
      match find (fun kv => String.eqb (fst kv) "device_name") device with
      | None => inl KeyError
      | Some (_, name) =>
          match device_names rest with
          | inl f => inl f
          | inr names => inr (VStr name :: names)
          end
      end
  end.

(** [get_devices_list]: the device of the command line when it is given and
    not empty; else the devices of the file, which is read only then.
    [loaded] is what [load_devices_from_json] returns, [None] when it
    raises. *)
Definition get_devices_list (config : Namespace) (loaded : option DevicesConfig)
    : Failure + list PyVal :=
  let device_name := getoption config "--device_name" in
  if truthy device_name then inr [device_name]
  else
    match loaded with
    | None => inl LoadError
    | Some devices => device_names devices
    end.

(** [pytest_generate_tests]: a test that asks for the fixture [device_name]
    is run once per device; [None] stands for a test that is not
    parametrized. *)
Definition pytest_generate_tests (fixturenames : list string) (config : Namespace)
    (loaded : option DevicesConfig) : option (Failure + list PyVal) :=
  if existsb (String.eqb "device_name") fixturenames
  then Some (get_devices_list config loaded)
  else None.

End devices.

(** ** Vocabulary for the further statements *)

(** The page actions that resolve one target and then interact with it
    once. *)
Inductive Interaction : Type :=
| Click
| Clear
| SwitchFrame
| Hover
| HoverOffset (x y : Z)
| TypeKeys (keys : list KeyPart) (log_input : bool)
| ScrollCenter.

Definition run_interaction (driver : WebDriver) (i : Interaction) (locator : PyLocator)
    (element : option WebElement) (timeout : option Q) : M unit :=
  match i with
  | Click => BasePageActions.click_element driver locator element timeout
  | Clear => BasePageActions.clear_textbox driver locator element timeout
  | SwitchFrame => BasePageActions.switch_to_frame driver locator element timeout
  | Hover => BasePageActions.moveto_element driver locator element timeout
  | HoverOffset x y => BasePageActions.moveto_element_offset driver locator element timeout x y
  | TypeKeys keys log_input =>
      BasePageActions.input_to_element driver locator element keys timeout log_input
  | ScrollCenter => BasePageActions.scroll_into_element_center driver locator element timeout
  end.

(** The call an interaction issues on the resolved element. *)
Definition interaction_call (i : Interaction) (el : WebElement) : Call :=
  match i with
  | Click => click el
  | Clear => clear el
  | SwitchFrame => Selenium.switch_to_frame el
  | Hover => perform [move_to_element el]
  | HoverOffset x y => perform [move_to_element_with_offset el x y]
  | TypeKeys keys _ => send_keys el keys
  | ScrollCenter => Selenium.execute_script scroll_center_script [el]
  end.

(** The options [Browser.chrome] hands to [webdriver.Chrome]. *)
Definition chrome_options (is_headless : bool) (device : option string) : ChromeOptions :=
  {| arguments := if is_headless then ["--headless"] else [];
     experimental_options :=
       match device with
       | Some (String c name) => [("mobileEmulation", ("deviceName", String c name))]
       | Some EmptyString | None => []
       end |}.

Definition is_save_screenshot (c : Call) : bool :=
  match c with
  | save_screenshot _ => true
  | _ => false
  end.

(** A computation whose calls extend the trace and hold no
    [save_screenshot]. *)
Definition takes_no_screenshot {A : Type} (m : M A) : Prop :=
  forall s : State,
  exists calls : list Call,
    trace (snd (m s)) = trace s ++ calls /\ filter is_save_screenshot calls = [].

(** The waits of the home page that the statements name. *)
Definition search_field_wait : Call :=
  until 10%Q (visibility_of_element_located (tuple_of HomePage.search_field)).
Definition search_results_wait : Call :=
  until 3%Q (presence_of_all_elements_located (tuple_of HomePage.search_result_elements)).
Definition start_watching_wait : Call :=
  until 5%Q (visibility_of_element_located (tuple_of HomePage.start_watching_button)).
Definition live_label_present_wait : Call :=
  until 10%Q (presence_of_element_located (tuple_of HomePage.stream_live_label)).
Definition live_label_visible_wait : Call :=
  until 10%Q (visibility_of_element_located (tuple_of HomePage.stream_live_label)).
Definition page_logo_wait : Call :=
  until 10%Q (visibility_of_element_located (tuple_of HomePage.page_logo)).

(** Opening the page fails, every other call succeeds. *)
Definition get_failing_driver : WebDriver :=
  selenium
    {| until_element := fun _ _ _ => Ret (Element 1);
       until_elements := fun _ _ _ => Ret [Element 1; Element 2];
       until_true := fun _ _ _ => Ret tt;
       child_of := fun _ _ _ _ => Ret (Element 3);
       children_of := fun _ _ _ _ => Ret [Element 3];
       displayed := fun _ _ => Ret true;
       attribute := fun _ _ _ => Ret None;
       text_of := fun _ _ => Ret EmptyString;
       command := fun _ c =>
         match c with
         | get _ => Raise WebDriverException
         | _ => Ret tt
         end |}.

(** Two devices, as in a devices file. *)
Definition sample_devices : devices.DevicesConfig :=
  [[("device_name", "iPhone X")]; [("device_name", "Galaxy S5")]].

(** * Theorems *)

Import BasePageActions.

(** ** Running the monad in proofs *)

Lemma or_default_Some : forall t : Q, or_default (Some t) = t.
Proof. reflexivity. Qed.

Create HintDb harness discriminated.

#[local] Hint Unfold bind ret raise try_except logging_info logging_error time_sleep
  WebDriverWait_until WebDriverWait_until_all WebDriverWait_until_true do
  by_value as_tuple timed_out
  get_visible_element get_present_element get_clickable_element
  get_visible_elements_list get_present_elements_list wait_elements_invisibility
  __element element_is_displayed element_is_present element_is_absent element_is_clickable
  click_element scroll_into_element_center execute_script scroll_down
  input_to_element moveto_and_click_element random.choice
  HomePage.click_random_stream HomePage.scroll_home_screen
  : harness.

(** Unfold the page actions down to the oracles; the default timeout stays
    folded so that the waits read as in the hypotheses. *)
Ltac run := autounfold with harness; cbn -[or_default]; rewrite ?or_default_Some.

(** ** The resolution function [__element] *)

(** C4: when an element handle is supplied, with or without a locator,
    [__element] returns that handle and leaves the state as it was: no wait is
    issued and nothing is logged. *)
Theorem element_handle_is_returned_unchanged :
  forall (driver : WebDriver) (locator : PyLocator) (element : WebElement)
         (timeout : option Q) (show_error_logs : bool) (s : State),
    __element driver locator (Some element) timeout show_error_logs s = (Ret element, s).
Proof.
  intros. reflexivity.
Qed.

(** C3: called with neither a locator nor an element, [__element] raises the
    usage error, and so does every page action that takes a locator or an
    element: none of them catches it, the probe [element_is_displayed]
    included, and no call reaches the driver.  In [moveto_and_click_element]
    the click target is resolved second, so its usage error is raised once
    the hover target has been resolved. *)
Theorem neither_locator_nor_element_raises_usage_error :
  forall (driver : WebDriver) (s : State) (timeout : option Q),
    (forall show, __element driver PyNone None timeout show s = (Raise usage_error, s))
    /\ (forall child,
          fst (get_child_element driver child None PyNone timeout s) = Raise usage_error
          /\ trace (snd (get_child_element driver child None PyNone timeout s)) = trace s)
    /\ (forall child,
          fst (get_child_elements_list driver child None PyNone timeout s) = Raise usage_error
          /\ trace (snd (get_child_elements_list driver child None PyNone timeout s)) = trace s)
    /\ (forall name,
          get_element_attribute driver name PyNone None timeout s = (Raise usage_error, s))
    /\ get_text driver PyNone None timeout s = (Raise usage_error, s)
    /\ get_input_value driver PyNone None timeout s = (Raise usage_error, s)
    /\ (fst (element_is_displayed driver PyNone None timeout s) = Raise usage_error
        /\ trace (snd (element_is_displayed driver PyNone None timeout s)) = trace s)
    /\ (forall keys log_input,
          input_to_element driver PyNone None keys timeout log_input s = (Raise usage_error, s))
    /\ clear_textbox driver PyNone None timeout s = (Raise usage_error, s)
    /\ clear_textbox_with_keyboard driver PyNone None timeout s = (Raise usage_error, s)
    /\ switch_to_frame driver PyNone None timeout s = (Raise usage_error, s)
    /\ click_element driver PyNone None timeout s = (Raise usage_error, s)
    /\ moveto_element driver PyNone None timeout s = (Raise usage_error, s)
    /\ (forall x y,
          moveto_element_offset driver PyNone None timeout x y s = (Raise usage_error, s))
    /\ scroll_into_element_center driver PyNone None timeout s = (Raise usage_error, s)
    /\ (forall locator_to_click element_to_click timeout_to_click,
          moveto_and_click_element driver PyNone None timeout
            locator_to_click element_to_click timeout_to_click s = (Raise usage_error, s))
    /\ (forall locator_to_move element_to_move timeout_to_click,
          match __element driver locator_to_move element_to_move timeout true s with
          | (Ret _, s1) =>
              moveto_and_click_element driver locator_to_move element_to_move timeout
                PyNone None timeout_to_click s = (Raise usage_error, s1)
          | (Raise e, s1) =>
              moveto_and_click_element driver locator_to_move element_to_move timeout
                PyNone None timeout_to_click s = (Raise e, s1)
          end).
Proof.
  intros driver s timeout.
  repeat split; intros; try reflexivity.
  unfold moveto_and_click_element, bind.
  destruct (__element driver locator_to_move element_to_move timeout true s) as [[mv | e] s1];
    reflexivity.
Qed.

(** ** Waits that run into their timeout *)

(** C2: when the wait under a resolve operation ends with
    [TimeoutException], the operation raises [AssertionError] with a message
    that holds the locator and the timeout in force; this is so for either
    value of [show_error_logs], which decides one thing only: whether the
    message is also logged as an error.  One wait is issued, with the timeout
    in force. *)
Theorem resolve_timeout_raises_whatever_the_log_flag :
  forall (driver : WebDriver) (r : Resolve) (l : Locator) (timeout : option Q) (s : State),
    resolve_wait driver r l (or_default timeout) (trace s) = Some TimeoutException ->
    exists (msg : message) (a : PyLocator),
      (forall show : bool,
          fst (run_resolve driver r l timeout show s) = Raise (AssertionError msg)
          /\ trace (snd (run_resolve driver r l timeout show s))
             = trace s ++ [until (or_default timeout) (resolve_condition r l)])
      /\ In (FmtLocator a) msg
      /\ denotes a l
      /\ In (FmtSeconds (or_default timeout)) msg
      /\ log (snd (run_resolve driver r l timeout true s))
         = log (snd (run_resolve driver r l timeout false s)) ++ [(ERROR, msg)].
Proof.
  intros driver r l timeout s H.
  destruct r;
    unfold resolve_wait, resolve_condition, resolve_locator, tuple_of in H;
    match type of H with raised ?w = _ => destruct w as [x | e] eqn:W end;
    cbn in H; try discriminate; injection H as ->;
    unfold run_resolve, resolve_condition, resolve_locator, tuple_of; run; rewrite W;
    cbn -[or_default];
    eexists; eexists;
    (split; [ intros show; destruct show; cbn -[or_default]; split; reflexivity | ]).
  all: cbn -[or_default]; unfold denotes, tuple_of; intuition.
Qed.

(** C2 at the landmark of the home page, on a driver whose waits time out. *)
Lemma resolve_timeout_raises_witness :
  exists (msg : message) (a : PyLocator),
    (forall show : bool,
        fst (run_resolve timing_out_driver PresentOne HomePage.folow_button (Some 7%Q) show initial)
          = Raise (AssertionError msg)
        /\ trace (snd (run_resolve timing_out_driver PresentOne HomePage.folow_button
                         (Some 7%Q) show initial))
           = trace initial
               ++ [until (or_default (Some 7%Q))
                     (resolve_condition PresentOne HomePage.folow_button)])
    /\ In (FmtLocator a) msg
    /\ denotes a HomePage.folow_button
    /\ In (FmtSeconds (or_default (Some 7%Q))) msg
    /\ log (snd (run_resolve timing_out_driver PresentOne HomePage.folow_button
                   (Some 7%Q) true initial))
       = log (snd (run_resolve timing_out_driver PresentOne HomePage.folow_button
                     (Some 7%Q) false initial)) ++ [(ERROR, msg)].
Proof.
  apply (resolve_timeout_raises_whatever_the_log_flag timing_out_driver PresentOne
           HomePage.folow_button (Some 7%Q) initial).
  reflexivity.
Defined.

(** ** The boolean probes *)

(** C1, as amended: when the wait under [element_is_displayed] or
    [element_is_present] ends with an exception, the probe returns [False] if
    that exception is a [TimeoutException] (or an [AssertionError]), and
    raises it again if it is of any other class; in both cases one wait has
    been issued, on the (by, value) pair of the [Locator] and with the
    timeout in force.  So a target that never becomes ready makes these two
    probes answer [False], for every [Locator] and every timeout. *)
Theorem probe_converts_timeout_to_false :
  forall (driver : WebDriver) (p : Probe) (l : Locator) (timeout : option Q) (s : State)
         (e : exn),
    p = Displayed \/ p = Present ->
    probe_wait driver p l (or_default timeout) (trace s) = Some e ->
    fst (run_probe driver p l timeout s)
      = (if is_Timeout_or_Assertion e then Ret false else Raise e)
    /\ trace (snd (run_probe driver p l timeout s))
       = trace s ++ [until (or_default timeout) (probe_condition p l)]
    /\ is_pair (condition_locator (probe_condition p l)) = true.
Proof.
  intros driver p l timeout s e Hp H.
  destruct Hp as [-> | ->];
    unfold probe_wait, probe_condition, tuple_of in H;
    match type of H with raised ?w = _ => destruct w as [x | e'] eqn:W end;
    cbn in H; try discriminate; injection H as ->;
    unfold run_probe, probe_condition, tuple_of; run; rewrite W;
    destruct e; cbn -[or_default]; repeat split; reflexivity.
Qed.

(** C1 at the two probes, on a driver whose waits time out. *)
Lemma probe_converts_timeout_to_false_witness :
  fst (run_probe timing_out_driver Present (Locators.css "#missing") None initial) = Ret false
  /\ fst (run_probe timing_out_driver Displayed (Locators.css "#logo") (Some 3%Q) initial)
     = Ret false.
Proof.
  split.
  - exact (proj1 (probe_converts_timeout_to_false timing_out_driver Present
                    (Locators.css "#missing") None initial TimeoutException
                    (or_intror eq_refl) eq_refl)).
  - exact (proj1 (probe_converts_timeout_to_false timing_out_driver Displayed
                    (Locators.css "#logo") (Some 3%Q) initial TimeoutException
                    (or_introl eq_refl) eq_refl)).
Defined.

(** C1, as stated, fails: an exception of the wait that is no timeout leaves
    [element_is_displayed] and [element_is_present]. *)
Lemma probe_lets_other_driver_errors_through :
  fst (run_probe broken_driver Displayed (Locators.css "#logo") None initial)
    = Raise WebDriverException
  /\ fst (run_probe broken_driver Present (Locators.css "#logo") None initial)
     = Raise WebDriverException.
Proof.
  split; reflexivity.
Qed.

(** ** Hover and click *)

(** Whatever it is given, [__element] issues waits only, at most one. *)
Lemma element_issues_waits_only :
  forall driver locator element timeout show s,
  exists waits,
    trace (snd (__element driver locator element timeout show s)) = trace s ++ waits
    /\ forallb is_until waits = true.
Proof.
  intros driver locator element timeout show s.
  destruct element as [el | ].
  - exists []. cbn. rewrite app_nil_r. split; reflexivity.
  - destruct locator as [ | l | b v]; run.
    + exists []. rewrite app_nil_r. split; reflexivity.
    + eexists [until _ _].
      destruct (until_element _ _ _ _) as [x | e]; [ | destruct e; destruct show ];
        cbn; split; reflexivity.
    + eexists [until _ _].
      destruct (until_element _ _ _ _) as [x | e]; [ | destruct e; destruct show ];
        cbn; split; reflexivity.
Qed.

(** C6: [moveto_and_click_element] resolves the hover target, then the click
    target, and only then builds the chain.  When the click target fails to
    resolve, the operation ends with that failure in the state the failed
    resolution left: the calls issued since the start are waits, and no
    [perform] (the hover and the click) is among them. *)
Theorem moveto_and_click_resolves_both_before_hover :
  forall (driver : WebDriver)
         (locator_to_move : PyLocator) (element_to_move : option WebElement)
         (timeout_to_move : option Q)
         (locator_to_click : PyLocator) (element_to_click : option WebElement)
         (timeout_to_click : option Q)
         (s s1 s2 : State) (moved : WebElement) (e : exn),
    __element driver locator_to_move element_to_move timeout_to_move true s = (Ret moved, s1) ->
    __element driver locator_to_click element_to_click timeout_to_click true s1 = (Raise e, s2) ->
    moveto_and_click_element driver locator_to_move element_to_move timeout_to_move
      locator_to_click element_to_click timeout_to_click s = (Raise e, s2)
    /\ exists waits,
         trace s2 = trace s ++ waits
         /\ forallb is_until waits = true
         /\ filter is_perform waits = [].
Proof.
  intros driver lm em tm lc ec tc s s1 s2 moved e Hmove Hclick.
  split.
  - unfold moveto_and_click_element, bind. rewrite Hmove, Hclick. reflexivity.
  - destruct (element_issues_waits_only driver lm em tm true s) as [w1 [T1 U1]].
    destruct (element_issues_waits_only driver lc ec tc true s1) as [w2 [T2 U2]].
    rewrite Hmove in T1. rewrite Hclick in T2. cbn in T1, T2.
    exists (w1 ++ w2). rewrite T2, T1, app_assoc. split; [ reflexivity | ].
    assert (U : forallb is_until (w1 ++ w2) = true)
      by (rewrite forallb_app, U1, U2; reflexivity).
    split; [ exact U | ].
    clear - U. induction (w1 ++ w2) as [ | c w IH]; [ reflexivity | ].
    cbn in U. apply andb_prop in U. destruct U as [Uc Uw].
    destruct c; cbn in *; try discriminate; auto.
Qed.

(** C6 on a driver that finds the hover target and not the click target. *)
Lemma moveto_and_click_witness :
  exists (e : exn) (s2 : State),
    moveto_and_click_element menu_only_driver (PyObj (Locators.css "#menu")) None None
      (PyObj (Locators.css "#item")) None (Some 2%Q) initial = (Raise e, s2)
    /\ exists waits,
         trace s2 = trace initial ++ waits
         /\ forallb is_until waits = true
         /\ filter is_perform waits = [].
Proof.
  eexists. eexists.
  eapply (moveto_and_click_resolves_both_before_hover menu_only_driver
            (PyObj (Locators.css "#menu")) None None
            (PyObj (Locators.css "#item")) None (Some 2%Q) initial).
  - cbv. reflexivity.
  - cbv. reflexivity.
Defined.


(** ** Scrolling the home screen *)

Lemma scroll_down_step :
  forall (driver : WebDriver) (s : State),
    command driver (trace s) (Selenium.execute_script scroll_by_script []) = Ret tt ->
    scroll_down driver s
    = (Ret tt,
       issued (Selenium.execute_script scroll_by_script [])
         (logged INFO [Lit "Browser: Executing script: "; FmtStr scroll_by_script] s)).
Proof.
  intros driver s Hok. run. fold scroll_by_script. rewrite Hok. reflexivity.
Qed.

Lemma for_range_scroll_down :
  forall (driver : WebDriver) (n : nat) (s : State),
    (forall tr, command driver tr (Selenium.execute_script scroll_by_script []) = Ret tt) ->
    fst (HomePage.for_range n (scroll_down driver) s) = Ret tt
    /\ trace (snd (HomePage.for_range n (scroll_down driver) s))
       = trace s ++ repeat (Selenium.execute_script scroll_by_script []) n.
Proof.
  intros driver n. induction n as [ | n IH]; intros s Hok.
  - cbn. rewrite app_nil_r. split; reflexivity.
  - cbn [HomePage.for_range]. unfold bind.
    rewrite (scroll_down_step driver s (Hok (trace s))). cbv beta iota.
    destruct (IH (issued (Selenium.execute_script scroll_by_script [])
                    (logged INFO [Lit "Browser: Executing script: "; FmtStr scroll_by_script] s))
                 Hok) as [R T].
    split; [ exact R | ].
    rewrite T. cbn. rewrite <- app_assoc. reflexivity.
Qed.

(** C8: for a non-negative [times], once the landmark is present and as long
    as the driver runs the scroll script, [scroll_home_screen] issues the wait
    for the landmark with a timeout of 7, then the pause of 2, then [times]
    scroll steps and nothing else; each step runs the script that scrolls by
    one inner height of the window. *)
Theorem scroll_home_screen_waits_pauses_then_scrolls :
  forall (driver : WebDriver) (times : Z) (s : State) (landmark : WebElement),
    (0 <= times)%Z ->
    until_element driver (trace s) 7%Q
      (presence_of_element_located (tuple_of HomePage.folow_button)) = Ret landmark ->
    (forall tr, command driver tr (Selenium.execute_script scroll_by_script []) = Ret tt) ->
    fst (HomePage.scroll_home_screen driver times s) = Ret tt
    /\ exists scrolls : list Call,
         trace (snd (HomePage.scroll_home_screen driver times s))
           = trace s ++ [landmark_wait; sleep 2%Q] ++ scrolls
         /\ scrolls = repeat (Selenium.execute_script scroll_by_script []) (Z.to_nat times)
         /\ Z.of_nat (length scrolls) = times.
Proof.
  intros driver times s landmark Hpos Hwait Hok.
  unfold HomePage.scroll_home_screen, get_present_element, by_value, time_sleep,
    WebDriverWait_until, try_except, logging_info, bind, ret.
  cbn -[HomePage.for_range scroll_down].
  unfold tuple_of in Hwait. cbn in Hwait. rewrite Hwait.
  match goal with
  | |- context [HomePage.for_range _ _ ?s'] =>
      destruct (for_range_scroll_down driver (Z.to_nat times) s' Hok) as [R T]
  end.
  split; [ exact R | ].
  eexists. split; [ | split; [ reflexivity | ] ].
  - rewrite T. cbn. rewrite <- !app_assoc. reflexivity.
  - rewrite repeat_length. apply Z2Nat.id. exact Hpos.
Qed.

(** C8 for two scroll steps, as the test asks for, on a driver that finds
    everything. *)
Lemma scroll_home_screen_witness :
  fst (HomePage.scroll_home_screen ready_driver 2 initial) = Ret tt
  /\ exists scrolls : list Call,
       trace (snd (HomePage.scroll_home_screen ready_driver 2 initial))
         = trace initial ++ [landmark_wait; sleep 2%Q] ++ scrolls
       /\ scrolls = repeat (Selenium.execute_script scroll_by_script []) (Z.to_nat 2)
       /\ Z.of_nat (length scrolls) = 2%Z.
Proof.
  apply (scroll_home_screen_waits_pauses_then_scrolls ready_driver 2 initial (Element 1)).
  - lia.
  - reflexivity.
  - intros tr. reflexivity.
Defined.


(** ** Picking a random stream *)

(** Every card of a list can be drawn: [random.choice] returns the card at the
    index its generator gives, and every card sits at some index. *)
Lemma choice_reaches_every_card :
  forall (els : list WebElement) (card : WebElement),
    In card els ->
    exists i : nat,
      i < length els
      /\ forall s : State, fst (random.choice (fun _ _ => i) els s) = Ret card.
Proof.
  intros els card H.
  destruct (In_nth_error els card H) as [i N].
  exists i. split.
  - apply nth_error_Some. rewrite N. discriminate.
  - intros s. unfold random.choice.
    destruct els as [ | el els]; [ destruct H | ].
    rewrite N. reflexivity.
Qed.







(** ** The name of the screenshot *)
Lemma all_chars_app :
  forall (p : ascii -> bool) (a b : string),
    all_chars p (a ++ b) = all_chars p a && all_chars p b.
Proof.
  intros p a b. induction a as [ | c a IH]; cbn; [ reflexivity | ].
  rewrite IH. apply andb_assoc.
Qed.

Lemma ascii_word_in_name_class :
  forall c : ascii, is_ascii c = true -> re.is_word c = true -> in_name_class c = true.
Proof.
  intros c.
  destruct c as [[] [] [] [] [] [] [] []]; vm_compute; intros; congruence.
Qed.

Lemma sub_scan_in_name_class :
  forall (s : string) (in_run : bool),
    all_chars is_ascii s = true ->
    all_chars in_name_class (re.sub_scan in_run s) = true.
Proof.
  induction s as [ | c s IH]; intros in_run H; cbn in *; [ reflexivity | ].
  apply andb_prop in H. destruct H as [Hc Hs].
  destruct (re.is_word c) eqn:W.
  - cbn. rewrite (ascii_word_in_name_class c Hc W). apply IH. exact Hs.
  - destruct in_run; cbn; apply IH; exact Hs.
Qed.

Lemma sub_scan_skips_run :
  forall (r v : string),
    all_chars non_word r = true ->
    re.sub_scan true (r ++ v) = re.sub_scan true v.
Proof.
  induction r as [ | c r IH]; intros v H; cbn in *; [ reflexivity | ].
  apply andb_prop in H. destruct H as [Hc Hr].
  unfold non_word in Hc. apply negb_true_iff in Hc. rewrite Hc.
  apply IH. exact Hr.
Qed.

Lemma sub_scan_after_run :
  forall (v : string) (in_run : bool),
    begins_with_word v = true -> re.sub_scan in_run v = re.sub_scan false v.
Proof.
  intros v in_run H. destruct v as [ | c v]; cbn in *; [ reflexivity | ].
  rewrite H. reflexivity.
Qed.

(** C9, as amended: when the device name, the environment name and the
    timestamp are ASCII, the name of the screenshot is a stem followed by
    [.png], and the stem holds characters of [A-Za-z0-9_] only.  The stem is
    [re.sub] of the file name, which copies every character that [\w]
    matches, the underscore among them, and puts one underscore for every
    maximal run of characters that [\w] does not match. *)
Theorem screenshot_name_of_ascii_parts :
  forall device environment now : string,
    all_chars is_ascii device = true ->
    all_chars is_ascii environment = true ->
    all_chars is_ascii now = true ->
    TestTwitchSearch.screenshot_name device environment now
      = (re.sub_nonword_underscore (TestTwitchSearch.filename device environment now)
           ++ ".png")%string
    /\ all_chars in_name_class
         (re.sub_nonword_underscore (TestTwitchSearch.filename device environment now)) = true
    /\ (forall (c : ascii) (rest : string),
          re.is_word c = true ->
          re.sub_nonword_underscore (String c rest)
            = String c (re.sub_nonword_underscore rest))
    /\ (forall (c : ascii) (run rest : string),
          all_chars non_word (String c run) = true ->
          begins_with_word rest = true ->
          re.sub_nonword_underscore (String c run ++ rest)
            = String "_" (re.sub_nonword_underscore rest)).
Proof.
  intros device environment now Hd He Hn.
  split; [ reflexivity | ].
  split; [ | split ].
  - apply sub_scan_in_name_class. unfold TestTwitchSearch.filename.
    rewrite !all_chars_app, Hd, He, Hn. reflexivity.
  - intros c rest W. unfold re.sub_nonword_underscore. cbn. rewrite W. reflexivity.
  - intros c run rest H B. unfold re.sub_nonword_underscore.
    cbn in H. apply andb_prop in H. destruct H as [Hc Hr].
    unfold non_word in Hc. apply negb_true_iff in Hc.
    cbn. rewrite Hc. f_equal.
    rewrite (sub_scan_skips_run run rest Hr).
    apply sub_scan_after_run. exact B.
Qed.

(** C9 for the device Galaxy S5, the environment staging and a timestamp as
    [datetime.now()] prints it. *)
Lemma screenshot_name_witness :
  TestTwitchSearch.screenshot_name "Galaxy S5" "staging" "2024-05-06 07:08:09.123456"
    = (re.sub_nonword_underscore
         (TestTwitchSearch.filename "Galaxy S5" "staging" "2024-05-06 07:08:09.123456")
         ++ ".png")%string
  /\ all_chars in_name_class
       (re.sub_nonword_underscore
          (TestTwitchSearch.filename "Galaxy S5" "staging" "2024-05-06 07:08:09.123456"))
     = true.
Proof.
  pose proof (screenshot_name_of_ascii_parts "Galaxy S5" "staging"
                "2024-05-06 07:08:09.123456" eq_refl eq_refl eq_refl) as H.
  split; [ exact (proj1 H) | exact (proj1 (proj2 H)) ].
Defined.

(** The name for the device Galaxy S5 in the environment staging. *)
Example screenshot_name_galaxy_s5 :
  TestTwitchSearch.screenshot_name "Galaxy S5" "staging" "2024-05-06 07:08:09.123456"
  = "Galaxy_S5_staging_2024_05_06_07_08_09_123456.png".
Proof. reflexivity. Qed.

(** C9, as stated, fails.  For the device Galaxy S9+ the run made of the plus
    sign and the underscore of the name pattern comes out as two underscores,
    where collapsing every run of characters that are not alphanumeric gives
    one; and a letter outside ASCII in the environment name is matched by
    [\w], so it stays in the name. *)
Lemma screenshot_name_keeps_underscores_and_letters :
  TestTwitchSearch.cleaned_filename "Galaxy S9+" "staging" "2024-05-06 07:08:09.123456"
    = "Galaxy_S9__staging_2024_05_06_07_08_09_123456"
  /\ collapse_non_alphanumeric
       (TestTwitchSearch.filename "Galaxy S9+" "staging" "2024-05-06 07:08:09.123456")
     = "Galaxy_S9_staging_2024_05_06_07_08_09_123456"
  /\ TestTwitchSearch.cleaned_filename "Galaxy S5" (String e_acute "tude") "now"
     = ("Galaxy_S5_" ++ String e_acute "tude_now")%string
  /\ in_name_class e_acute = false.
Proof.
  repeat split; reflexivity.
Qed.

(** ** The command line and the headless flag *)

Import conftest.

(** Setting one option leaves the others as they were. *)
Lemma getoption_set_other :
  forall (ns : Namespace) (name key : string) (v : PyVal),
    name <> key -> getoption (set_option name v ns) key = getoption ns key.
Proof.
  intros ns name key v Hne. unfold getoption.
  induction ns as [ | [k x] ns IH]; cbn; [ reflexivity | ].
  destruct (String.eqb_spec k name) as [-> | Hk]; cbn.
  - destruct (String.eqb_spec name key) as [E | _]; [ contradiction | reflexivity ].
  - destruct (String.eqb k key); [ reflexivity | exact IH ].
Qed.

Lemma getoption_set_same :
  forall (ns : Namespace) (key : string) (v : PyVal),
    getoption ns key = v -> getoption (set_option key v ns) key = v.
Proof.
  intros ns key v. unfold getoption.
  induction ns as [ | [k x] ns IH]; cbn; intros H; [ exact H | ].
  destruct (String.eqb_spec k key) as [-> | Hk]; cbn.
  - rewrite String.eqb_refl. reflexivity.
  - destruct (String.eqb_spec k key) as [E | _]; [ contradiction | ]. apply IH. exact H.
Qed.

(** Reading the command line never turns [--is_local] off: the flag is the
    only [store_true] option, and giving it stores [True]. *)
Lemma parse_args_keeps_is_local :
  forall (n : nat) (argv : list string) (ns ns' : Namespace),
    length argv <= n ->
    getoption ns "--is_local" = VBool true ->
    parse_args pytest_addoption argv ns = Some ns' ->
    getoption ns' "--is_local" = VBool true.
Proof.
  induction n as [ | n IH]; intros argv ns ns' Hlen Hns Hparse.
  - destruct argv; [ | cbn in Hlen; lia ]. cbn in Hparse. congruence.
  - destruct argv as [ | tok rest]; [ cbn in Hparse; congruence | ].
    cbn [length] in Hlen. cbn [parse_args] in Hparse.
    destruct (split_eq tok) as [name inline].
    cbn [find pytest_addoption opt_name] in Hparse.
    destruct (String.eqb_spec "--environment" name) as [<- | _].
    { cbn in Hparse. destruct inline as [v | ].
      - eapply (IH rest); [ lia | | exact Hparse ].
        rewrite getoption_set_other; [ exact Hns | discriminate ].
      - destruct rest as [ | v rest']; [ discriminate | ].
        destruct (looks_like_flag v); [ discriminate | ].
        eapply (IH rest'); [ cbn in Hlen; lia | | exact Hparse ].
        rewrite getoption_set_other; [ exact Hns | discriminate ]. }
    destruct (String.eqb_spec "--device_name" name) as [<- | _].
    { cbn in Hparse. destruct inline as [v | ].
      - eapply (IH rest); [ lia | | exact Hparse ].
        rewrite getoption_set_other; [ exact Hns | discriminate ].
      - destruct rest as [ | v rest']; [ discriminate | ].
        destruct (looks_like_flag v); [ discriminate | ].
        eapply (IH rest'); [ cbn in Hlen; lia | | exact Hparse ].
        rewrite getoption_set_other; [ exact Hns | discriminate ]. }
    destruct (String.eqb_spec "--is_local" name) as [<- | _].
    { cbn in Hparse. destruct inline as [v | ]; [ discriminate | ].
      eapply (IH rest); [ lia | | exact Hparse ].
      apply getoption_set_same. exact Hns. }
    apply (IH rest ns ns'); [ lia | exact Hns | exact Hparse ].
Qed.

(** Not asked for a headless browser, [Browser.chrome] installs the driver
    binary and starts Chrome with the options that carry no argument. *)
Lemma chrome_without_headless :
  forall (driver : WebDriver) (device : option string) (s : State),
  exists calls : list Call,
    trace (snd (Browser.chrome driver false device s)) = trace s ++ calls
    /\ (forall c, In c calls ->
          c = ChromeDriverManager_install
          \/ c = webdriver_Chrome (options_without_headless device))
    /\ log (snd (Browser.chrome driver false device s))
       = log s ++ chrome_log_without_headless device.
Proof.
  intros driver device s.
  exists (match command driver (trace s) ChromeDriverManager_install with
          | Ret _ => [ChromeDriverManager_install;
                      webdriver_Chrome (options_without_headless device)]
          | Raise _ => [ChromeDriverManager_install]
          end).
  destruct device as [[ | c name] | ]; unfold Browser.chrome; run;
    destruct (command driver (trace s) ChromeDriverManager_install) as [[] | e];
    cbn;
    (split; [ try destruct (command driver _ (webdriver_Chrome _));
              cbn; rewrite <- ?app_assoc; reflexivity | ]);
    (split; [ intros c' H; cbn in H; intuition
            | try destruct (command driver _ (webdriver_Chrome _));
              cbn; rewrite <- ?app_assoc; reflexivity ]).
Qed.

(** C10: for every command line that the option parser accepts, [--is_local]
    is [True].  So the fixture [driver] asks [Browser] for Chrome with
    [is_headless] false: every [webdriver.Chrome] call it issues carries
    options without [--headless], and the log entry of the headless branch
    is never written. *)
Theorem is_local_is_true_for_every_command_line :
  forall (driver : WebDriver) (argv : list string) (config : Namespace) (device : string)
         (a : Args) (s : State),
    config_of argv = Some config ->
    getoption config "--is_local" = VBool true
    /\ driver_before_yield driver device config a
       = (Browser.chrome driver false (Some device) ;; do driver (get (args_url a)))
    /\ (forall options : ChromeOptions,
          In (webdriver_Chrome options)
             (trace (snd (driver_before_yield driver device config a s))) ->
          In (webdriver_Chrome options) (trace s)
          \/ ~ In "--headless" (arguments options))
    /\ (In headless_log_entry (log (snd (driver_before_yield driver device config a s))) ->
        In headless_log_entry (log s)).
Proof.
  intros driver argv config device a s Hconfig.
  assert (L : getoption config "--is_local" = VBool true).
  { apply (parse_args_keeps_is_local (length argv) argv (defaults pytest_addoption) config);
      [ apply Nat.le_refl | reflexivity | exact Hconfig ]. }
  assert (E : driver_before_yield driver device config a
              = (Browser.chrome driver false (Some device) ;; do driver (get (args_url a)))).
  { unfold driver_before_yield. rewrite L. reflexivity. }
  split; [ exact L | ]. split; [ exact E | ].
  rewrite E. unfold bind.
  destruct (chrome_without_headless driver (Some device) s) as [calls [T [C G]]].
  destruct (Browser.chrome driver false (Some device) s) as [[[] | e] s1]; cbn in T, G |- *.
  - split.
    + intros options H. rewrite T in H. rewrite <- app_assoc in H.
      apply in_app_or in H. destruct H as [H | H]; [ left; exact H | right ].
      apply in_app_or in H. destruct H as [H | [H | []]]; [ | discriminate ].
      destruct (C _ H) as [D | D]; [ discriminate | ].
      injection D as ->. destruct device; cbn; tauto.
    + intros H. rewrite G in H. apply in_app_or in H.
      destruct H as [H | H]; [ exact H | ].
      destruct device; cbn in H; unfold headless_log_entry in H;
        intuition discriminate.
  - split.
    + intros options H. rewrite T in H.
      apply in_app_or in H. destruct H as [H | H]; [ left; exact H | right ].
      destruct (C _ H) as [D | D]; [ discriminate | ].
      injection D as ->. destruct device; cbn; tauto.
    + intros H. rewrite G in H. apply in_app_or in H.
      destruct H as [H | H]; [ exact H | ].
      destruct device; cbn in H; unfold headless_log_entry in H;
        intuition discriminate.
Qed.

(** C10 on a command line that gives all three options. *)
Lemma is_local_witness :
  exists config : Namespace,
    config_of ["tests/test_twitch.py"; "--is_local"; "--environment=production";
               "--device_name"; "Galaxy S5"] = Some config
    /\ getoption config "--environment" = VStr "production"
    /\ getoption config "--device_name" = VStr "Galaxy S5"
    /\ getoption config "--is_local" = VBool true.
Proof.
  eexists. split; [ reflexivity | ].
  split; [ reflexivity | ]. split; [ reflexivity | ].
  exact (proj1 (is_local_is_true_for_every_command_line ready_driver
                  ["tests/test_twitch.py"; "--is_local"; "--environment=production";
                   "--device_name"; "Galaxy S5"]
                  _ "Galaxy S5"
                  {| args_environment := VStr "production"; args_device_name := VStr "Galaxy S5";
                     args_is_local := VBool true; args_url := "https://m.twitch.tv" |}
                  initial eq_refl)).
Defined.

(** ** The driver is quit once per session *)

(** Issuing a call adds one to the count of [quit] calls when the call is
    [quit], and nothing otherwise. *)
Lemma quits_issued :
  forall (c : Call) (s : State),
    quits (trace (issued c s)) = (if is_quit c then S (quits (trace s)) else quits (trace s)).
Proof.
  intros c s. unfold quits, issued. cbn.
  rewrite filter_app, length_app. cbn.
  destruct (is_quit c); cbn; lia.
Qed.

(** The building blocks of the monad never quit. *)
Lemma never_quits_ret : forall (A : Type) (a : A), never_quits (ret a).
Proof. intros A a s. reflexivity. Qed.

Lemma never_quits_raise : forall (A : Type) (e : exn), never_quits (@raise A e).
Proof. intros A e s. reflexivity. Qed.

Lemma never_quits_logging_info : forall msg : message, never_quits (logging_info msg).
Proof. intros msg s. reflexivity. Qed.

Lemma never_quits_logging_error : forall msg : message, never_quits (logging_error msg).
Proof. intros msg s. reflexivity. Qed.

Lemma never_quits_bind :
  forall (A B : Type) (m : M A) (k : A -> M B),
    never_quits m -> (forall a, never_quits (k a)) -> never_quits (bind m k).
Proof.
  intros A B m k Hm Hk s. unfold bind.
  specialize (Hm s). destruct (m s) as [[a | e] s1]; cbn in *.
  - rewrite Hk. exact Hm.
  - exact Hm.
Qed.

Lemma never_quits_try_except :
  forall (A : Type) (m : M A) (catches : exn -> bool) (handler : M A),
    never_quits m -> never_quits handler -> never_quits (try_except m catches handler).
Proof.
  intros A m catches handler Hm Hh s. unfold try_except.
  specialize (Hm s). destruct (m s) as [[a | e] s1]; cbn in *.
  - exact Hm.
  - destruct (catches e); [ rewrite Hh | ]; exact Hm.
Qed.

(** A call that is not [quit], whatever the driver answers. *)
Lemma never_quits_call :
  forall (A : Type) (c : State -> Call) (answer : State -> result A),
    (forall s, is_quit (c s) = false) ->
    never_quits (fun s => (answer s, issued (c s) s)).
Proof.
  intros A c answer H s.
  change (quits (trace (issued (c s) s)) = quits (trace s)).
  rewrite quits_issued, H. reflexivity.
Qed.

Lemma never_quits_choice :
  forall (A : Type) (randbelow : nat -> nat -> nat) (seq : list A),
    never_quits (random.choice randbelow seq).
Proof.
  intros A randbelow seq s. unfold random.choice.
  destruct seq; [ reflexivity | ].
  destruct (nth_error _ _); reflexivity.
Qed.

Lemma never_quits_for_range :
  forall (n : nat) (body : M unit), never_quits body -> never_quits (HomePage.for_range n body).
Proof.
  induction n as [ | n IH]; intros body H; cbn.
  - apply never_quits_ret.
  - apply never_quits_bind; [ exact H | intros _; apply IH; exact H ].
Qed.

(** Split a computation along its binds, handlers and branches, and close the
    leaves that issue a call other than [quit]. *)
Ltac quiet :=
  repeat first
    [ apply never_quits_ret
    | apply never_quits_raise
    | apply never_quits_logging_info
    | apply never_quits_logging_error
    | apply never_quits_choice
    | apply never_quits_for_range
    | apply never_quits_bind; [ | intros ? ]
    | apply never_quits_try_except
    | apply (never_quits_call _ (fun _ => _)); intros ?; reflexivity
    | apply never_quits_call; intros ?; reflexivity
    | match goal with
      | |- never_quits (if ?b then _ else _) => destruct b
      | |- never_quits (match ?x with _ => _ end) => destruct x
      end ].

(** No page action that the test uses asks the driver to quit. *)
Lemma never_quits_element :
  forall driver locator element timeout show,
    never_quits (__element driver locator element timeout show).
Proof.
  intros. unfold __element, get_visible_element, as_tuple, by_value, timed_out,
    WebDriverWait_until. cbv zeta. quiet.
Qed.

Lemma never_quits_get_present_element :
  forall driver locator timeout show,
    never_quits (get_present_element driver locator timeout show).
Proof.
  intros. unfold get_present_element, by_value, timed_out, WebDriverWait_until.
  cbv zeta. quiet.
Qed.

Lemma never_quits_get_visible_element :
  forall driver locator timeout show,
    never_quits (get_visible_element driver locator timeout show).
Proof.
  intros. unfold get_visible_element, as_tuple, by_value, timed_out, WebDriverWait_until.
  cbv zeta. quiet.
Qed.

Lemma never_quits_get_present_elements_list :
  forall driver locator timeout show,
    never_quits (get_present_elements_list driver locator timeout show).
Proof.
  intros. unfold get_present_elements_list, by_value, timed_out, WebDriverWait_until_all.
  cbv zeta. quiet.
Qed.

Lemma never_quits_element_is_displayed :
  forall driver locator element timeout,
    never_quits (element_is_displayed driver locator element timeout).
Proof.
  intros. unfold element_is_displayed. cbv zeta. quiet.
  apply never_quits_element.
Qed.

Lemma never_quits_click_element :
  forall driver locator element timeout,
    never_quits (click_element driver locator element timeout).
Proof.
  intros. unfold click_element, do. cbv zeta. quiet. apply never_quits_element.
Qed.

Lemma never_quits_input_to_element :
  forall driver locator element keys timeout log_input,
    never_quits (input_to_element driver locator element keys timeout log_input).
Proof.
  intros. unfold input_to_element, do. cbv zeta. quiet. apply never_quits_element.
Qed.

Lemma never_quits_execute_script :
  forall driver script args, never_quits (execute_script driver script args).
Proof.
  intros. unfold execute_script, do. quiet.
Qed.

Lemma never_quits_scroll_into_element_center :
  forall driver locator element timeout,
    never_quits (scroll_into_element_center driver locator element timeout).
Proof.
  intros. unfold scroll_into_element_center, execute_script, do. cbv zeta. quiet.
  apply never_quits_element.
Qed.

Lemma never_quits_test_search_starcraft_streamer :
  forall driver randbelow now ui,
    never_quits (TestTwitchSearch.test_search_starcraft_streamer driver randbelow now ui).
Proof.
  intros. unfold TestTwitchSearch.test_search_starcraft_streamer,
    HomePage.is_page_loaded, HomePage.click_search_button, HomePage.input_search_field,
    HomePage.scroll_home_screen, HomePage.click_random_stream, HomePage.wait_video_starting,
    scroll_down, time_sleep, do.
  quiet;
    first [ apply never_quits_element_is_displayed
          | apply never_quits_click_element
          | apply never_quits_input_to_element
          | apply never_quits_get_present_elements_list
          | apply never_quits_get_present_element
          | apply never_quits_get_visible_element
          | apply never_quits_execute_script
          | apply never_quits_scroll_into_element_center
          | idtac ].
Qed.

(** Starting the browser and opening the page does not quit it. *)
Lemma never_quits_driver_before_yield :
  forall driver device config a,
    never_quits (driver_before_yield driver device config a).
Proof.
  intros. unfold driver_before_yield, Browser.browser_driver, Browser.chrome, do.
  cbn -[never_quits]. quiet.
Qed.

(** C7: in a session whose [driver] fixture has reached its [yield], the
    runner resumes the fixture after the test body whichever way the body
    ended: for every test body and every outcome [r] of it, returned or
    raised, the session ends in the state the body left plus one [quit] call,
    issued last.  The test of the repository and the setup of the fixture
    issue no [quit] of their own, so the session of that test holds exactly
    one [quit] call more than the trace it started from. *)
Theorem driver_is_quit_once_per_session :
  forall (driver : WebDriver) (randbelow : nat -> nat -> nat) (now : list Call -> string)
         (env_config : EnvConfig) (config : Namespace) (device : string) (s s1 : State),
    driver_before_yield driver device config (args env_config config) s = (Ret tt, s1) ->
    (forall (test : UI -> M unit) (r : result unit) (s2 : State),
        test (ui (args env_config config) device) s1 = (r, s2) ->
        session driver env_config config device test s
        = ({| setup_outcome := Ret tt;
              call_outcome := Some r;
              teardown_outcome := Some (command driver (trace s2) quit) |},
           issued quit s2))
    /\ quits (trace (snd (session driver env_config config device
                            (TestTwitchSearch.test_search_starcraft_streamer
                               driver randbelow now) s)))
       = S (quits (trace s)).
Proof.
  intros driver randbelow now env_config config device s s1 Hsetup.
  assert (Any : forall (test : UI -> M unit) (r : result unit) (s2 : State),
             test (ui (args env_config config) device) s1 = (r, s2) ->
             session driver env_config config device test s
             = ({| setup_outcome := Ret tt;
                   call_outcome := Some r;
                   teardown_outcome := Some (command driver (trace s2) quit) |},
                issued quit s2)).
  { intros test r s2 Htest. unfold session, run_with_fixture.
    rewrite Hsetup, Htest. reflexivity. }
  split; [ exact Any | ].
  destruct (TestTwitchSearch.test_search_starcraft_streamer driver randbelow now
              (ui (args env_config config) device) s1) as [r s2] eqn:Htest.
  rewrite (Any _ r s2 Htest). cbn [snd]. rewrite quits_issued. cbn [is_quit]. f_equal.
  pose proof (never_quits_test_search_starcraft_streamer driver randbelow now
                (ui (args env_config config) device) s1) as Qtest.
  rewrite Htest in Qtest. cbn [snd] in Qtest. rewrite Qtest.
  pose proof (never_quits_driver_before_yield driver device config
                (args env_config config) s) as Qsetup.
  rewrite Hsetup in Qsetup. exact Qsetup.
Qed.

(** C7 for the test of the repository on a driver that finds everything. *)
Lemma driver_is_quit_once_witness :
  quits (trace (snd (session ready_driver sample_env_config (defaults pytest_addoption)
                       "iPhone X"
                       (TestTwitchSearch.test_search_starcraft_streamer ready_driver
                          (fun _ _ => 0) (fun _ => "2024-05-06 07:08:09.123456"))
                       initial)))
  = S (quits (trace initial)).
Proof.
  refine (proj2 (driver_is_quit_once_per_session ready_driver (fun _ _ => 0)
                   (fun _ => "2024-05-06 07:08:09.123456") sample_env_config
                   (defaults pytest_addoption) "iPhone X" initial _ _)).
  cbv. reflexivity.
Defined.

(** The two ways out of the test body, run on sample drivers: the body
    returns, the body raises; and a setup that raises, where the test is not
    run and the fixture is not resumed. *)
Example session_with_a_passing_test :
  let run := session ready_driver sample_env_config (defaults pytest_addoption) "iPhone X"
               (TestTwitchSearch.test_search_starcraft_streamer ready_driver
                  (fun _ _ => 0) (fun _ => "2024-05-06 07:08:09.123456")) initial in
  call_outcome (fst run) = Some (Ret tt)
  /\ quits (trace (snd run)) = 1
  /\ last (trace (snd run)) refresh = quit.
Proof. repeat split; reflexivity. Qed.

Example session_with_a_failing_test :
  let run := session timing_out_driver sample_env_config (defaults pytest_addoption) "iPhone X"
               (TestTwitchSearch.test_search_starcraft_streamer timing_out_driver
                  (fun _ _ => 0) (fun _ => "2024-05-06 07:08:09.123456")) initial in
  call_outcome (fst run)
    = Some (Raise (AssertionError [Lit "Twitch home page did not load properly."]))
  /\ quits (trace (snd run)) = 1
  /\ last (trace (snd run)) refresh = quit.
Proof. repeat split; reflexivity. Qed.

Example session_whose_setup_raises :
  let run := session broken_driver sample_env_config (defaults pytest_addoption) "iPhone X"
               (TestTwitchSearch.test_search_starcraft_streamer broken_driver
                  (fun _ _ => 0) (fun _ => "2024-05-06 07:08:09.123456")) initial in
  setup_outcome (fst run) = Raise WebDriverException
  /\ call_outcome (fst run) = None
  /\ quits (trace (snd run)) = 0.
Proof. repeat split; reflexivity. Qed.

(** * Further properties of the page actions *)

#[local] Hint Unfold clear_textbox switch_to_frame moveto_element moveto_element_offset
  get_child_element get_element_attribute get_input_value get_text
  clear_textbox_with_keyboard : harness.

(** [__element] leaves the trace as it is or adds one wait to it. *)
Lemma element_issues_at_most_one_wait :
  forall driver locator element timeout show s,
  exists waits : list Call,
    trace (snd (__element driver locator element timeout show s)) = trace s ++ waits
    /\ forallb is_until waits = true
    /\ length waits <= 1.
Proof.
  intros driver locator element timeout show s.
  destruct element as [el | ].
  - exists []. cbn. rewrite app_nil_r. repeat split; auto.
  - destruct locator as [ | l | b v]; run.
    + exists []. rewrite app_nil_r. repeat split; auto.
    + eexists [until _ _].
      destruct (until_element _ _ _ _) as [x | e]; [ | destruct e; destruct show ];
        cbn; repeat split; auto.
    + eexists [until _ _].
      destruct (until_element _ _ _ _) as [x | e]; [ | destruct e; destruct show ];
        cbn; repeat split; auto.
Qed.

(** The timeout reaches [__element] defaulted or not, with the same effect. *)
Lemma element_default_timeout :
  forall driver locator element timeout show,
    __element driver locator element (Some (or_default timeout)) show
    = __element driver locator element timeout show.
Proof. reflexivity. Qed.

(** X1: a probe answers [True] exactly when its wait returned; for
    [element_is_displayed], when moreover the element found reports itself
    displayed. *)
Theorem probe_is_true_exactly_when_the_wait_returns :
  forall (driver : WebDriver) (l : Locator) (timeout : option Q) (s : State),
    (forall p : Probe,
        p <> Displayed ->
        (fst (run_probe driver p l timeout s) = Ret true
         <-> probe_wait driver p l (or_default timeout) (trace s) = None))
    /\ (fst (run_probe driver Displayed l timeout s) = Ret true
        <-> exists el : WebElement,
              until_element driver (trace s) (or_default timeout)
                (probe_condition Displayed l) = Ret el
              /\ displayed driver
                   (trace s ++ [until (or_default timeout) (probe_condition Displayed l)]) el
                 = Ret true).
Proof.
  intros driver l timeout s. split.
  - intros p Hp. destruct p; [ contradiction | | | ];
      unfold run_probe, probe_wait, probe_condition, tuple_of; run;
      match goal with
      | |- context [raised ?w] => destruct w as [x | e]
      end; cbn; try (destruct e; cbn); split; intros H; try reflexivity; discriminate.
  - unfold run_probe, probe_condition, tuple_of. run.
    destruct (until_element _ _ _ _) as [el | e]; cbn.
    + destruct (displayed _ _ _) as [[ | ] | e'] eqn:D; cbn.
      * split; [ intros _; exists el; split; [ reflexivity | exact D ] | reflexivity ].
      * split; [ discriminate
               | intros [el' [E D']]; injection E as <-; rewrite D in D'; discriminate ].
      * split; [ destruct e'; discriminate
               | intros [el' [E D']]; injection E as <-; rewrite D in D'; discriminate ].
    + split; [ destruct e; cbn; discriminate | intros [el' [E _]]; discriminate ].
Qed.

(** X2: the two lookups by presence and the probe built on them read
    [locator.by] before they wait.  Given the pair [(by, value)], which
    [get_visible_element] accepts, or given [None], the default of
    [element_is_present], they raise [AttributeError]; the probe does not
    turn it into [False]; no wait is issued. *)
Theorem presence_lookups_need_a_locator_object :
  forall (driver : WebDriver) (locator : PyLocator) (timeout : option Q) (show : bool)
         (s : State),
    (forall l : Locator, locator <> PyObj l) ->
    (fst (get_present_element driver locator timeout show s) = Raise AttributeError
     /\ trace (snd (get_present_element driver locator timeout show s)) = trace s)
    /\ (fst (get_present_elements_list driver locator timeout show s) = Raise AttributeError
        /\ trace (snd (get_present_elements_list driver locator timeout show s)) = trace s)
    /\ (fst (element_is_present driver locator timeout s) = Raise AttributeError
        /\ trace (snd (element_is_present driver locator timeout s)) = trace s).
Proof.
  intros driver locator timeout show s H.
  destruct locator as [ | l | b v]; [ | exfalso; apply (H l); reflexivity | ];
    repeat split; reflexivity.
Qed.

(** X2 for the pair that [get_visible_element] takes. *)
Lemma presence_lookups_witness :
  (fst (get_present_element ready_driver (PyTuple CSS_SELECTOR "#logo") None true initial)
     = Raise AttributeError
   /\ trace (snd (get_present_element ready_driver (PyTuple CSS_SELECTOR "#logo") None true
                    initial)) = trace initial)
  /\ fst (get_visible_element ready_driver (PyTuple CSS_SELECTOR "#logo") None true initial)
     = Ret (Element 1).
Proof.
  split.
  - apply (presence_lookups_need_a_locator_object ready_driver
             (PyTuple CSS_SELECTOR "#logo") None true initial).
    intros l. discriminate.
  - reflexivity.
Defined.

(** X3: [get_child_element] resolves the base, then searches under the
    element it got, with the strategy and the value of the child locator.
    When the base does not resolve, no search is issued.  A search that ends
    with [NoSuchElementException] becomes an [AssertionError] that names the
    child locator, and is logged as an error; any other outcome of the search
    is the outcome of the operation. *)
Theorem child_lookup_searches_under_the_resolved_base :
  forall (driver : WebDriver) (child : Locator) (base_element : option WebElement)
         (base_locator : PyLocator) (timeout : option Q) (s : State),
    let op := get_child_element driver child base_element base_locator timeout s in
    let error := [Lit "Cannot find child element with locator "; FmtChild child] in
    let start :=
      logged INFO [Lit "Browser: Finding child element with it's locator "; FmtChild child] s in
    match __element driver base_locator base_element timeout true start with
    | (Raise e, s1) => op = (Raise e, s1)
    | (Ret parent, s1) =>
        let search := find_element parent (by_ child) (value child) in
        trace (snd op) = trace s1 ++ [search]
        /\ match child_of driver (trace s1) parent (by_ child) (value child) with
           | Raise NoSuchElementException =>
               op = (Raise (AssertionError error), logged ERROR error (issued search s1))
           | found_or_failed => op = (found_or_failed, issued search s1)
           end
    end.
Proof.
  intros driver child base_element base_locator timeout s op error start.
  subst op error start.
  unfold get_child_element, bind.
  change (logging_info ?m s) with (Ret tt, logged INFO m s).
  cbv beta iota zeta. rewrite element_default_timeout.
  destruct (__element driver base_locator base_element timeout true _) as [[parent | e] s1];
    [ | reflexivity ].
  unfold try_except, bind, logging_error, raise.
  destruct (child_of driver (trace s1) parent (by_ child) (value child)) as [c | e];
    [ split; reflexivity | ].
  destruct e; split; reflexivity.
Qed.

(** X4: each page action that acts on one target resolves it first and then
    issues one call on the element it got: beyond at most one wait, that call
    is the only one, and its outcome is the outcome of the action.  When the
    target does not resolve, the action ends with that failure and issues no
    call on any element. *)
Theorem interaction_follows_resolution :
  forall (driver : WebDriver) (i : Interaction) (locator : PyLocator)
         (element : option WebElement) (timeout : option Q) (s : State),
  exists waits : list Call,
    forallb is_until waits = true
    /\ length waits <= 1
    /\ match fst (__element driver locator element timeout true s) with
       | Raise e =>
           fst (run_interaction driver i locator element timeout s) = Raise e
           /\ trace (snd (run_interaction driver i locator element timeout s))
              = trace s ++ waits
       | Ret el =>
           fst (run_interaction driver i locator element timeout s)
             = command driver (trace s ++ waits) (interaction_call i el)
           /\ trace (snd (run_interaction driver i locator element timeout s))
              = trace s ++ waits ++ [interaction_call i el]
       end.
Proof.
  intros driver i locator element timeout s.
  destruct (element_issues_at_most_one_wait driver locator element timeout true s)
    as [waits [T [U L]]].
  exists waits. split; [ exact U | ]. split; [ exact L | ].
  destruct i;
    unfold run_interaction, interaction_call, click_element, clear_textbox, switch_to_frame,
      moveto_element, moveto_element_offset, input_to_element, scroll_into_element_center,
      execute_script, do, bind;
    cbv zeta; rewrite ?element_default_timeout;
    destruct (__element driver locator element timeout true s) as [[el | e] s1];
    cbn [fst snd] in T |- *;
    try (split; [ reflexivity | exact T ]).
  all: try destruct log_input.
  all: cbn; rewrite ?T;
    try (destruct (command driver (trace s ++ waits) _) as [[] | e']; cbn);
    rewrite ?T, <- ?app_assoc; split; reflexivity.
Qed.

(** X5: [get_input_value] gives what [get_element_attribute] gives for the
    attribute [value] of the same target, through the same calls: the
    target is resolved once, and the element found is read without a second
    wait. *)
Theorem input_value_is_the_value_attribute :
  forall (driver : WebDriver) (locator : PyLocator) (element : option WebElement)
         (timeout : option Q) (s : State),
    fst (get_input_value driver locator element timeout s)
      = fst (get_element_attribute driver "value" locator element timeout s)
    /\ trace (snd (get_input_value driver locator element timeout s))
       = trace (snd (get_element_attribute driver "value" locator element timeout s)).
Proof.
  intros driver locator element timeout s.
  unfold get_input_value, get_element_attribute, bind. cbv zeta.
  rewrite ?element_default_timeout.
  destruct (__element driver locator element timeout true s) as [[el | e] s1];
    [ | split; reflexivity ].
  cbn. destruct (attribute driver (trace s1) el "value"); split; reflexivity.
Qed.

(** X6: [clear_textbox_with_keyboard] resolves its target once and then
    sends it two key sequences, the control key with [ + a] and then the
    delete key, with no wait in between; the delete key is not sent when the
    first sequence fails, and nothing is sent when the target does not
    resolve. *)
Theorem clear_with_keyboard_sends_two_sequences :
  forall (driver : WebDriver) (locator : PyLocator) (element : option WebElement)
         (timeout : option Q) (s : State),
    let op := clear_textbox_with_keyboard driver locator element timeout s in
    match __element driver locator element timeout true s with
    | (Raise e, s1) => op = (Raise e, s1)
    | (Ret el, s1) =>
        let select_all := send_keys el [Key CONTROL; Chars " + a"] in
        let delete := send_keys el [Key DELETE] in
        match command driver (trace s1) select_all with
        | Raise e => fst op = Raise e /\ trace (snd op) = trace s1 ++ [select_all]
        | Ret _ =>
            fst op = command driver (trace s1 ++ [select_all]) delete
            /\ trace (snd op) = trace s1 ++ [select_all; delete]
        end
    end.
Proof.
  intros driver locator element timeout s op. subst op.
  unfold clear_textbox_with_keyboard, bind. cbv zeta.
  rewrite ?element_default_timeout.
  destruct (__element driver locator element timeout true s) as [[el | e] s1];
    [ | reflexivity ].
  cbn. destruct (command driver (trace s1) _) as [[] | e]; cbn.
  - rewrite <- app_assoc.
    destruct (command driver _ (send_keys el [Key DELETE])); split; reflexivity.
  - split; reflexivity.
Qed.

(** * Further properties of the home page *)

#[local] Hint Unfold HomePage.input_search_field HomePage.wait_video_starting
  HomePage.is_page_loaded HomePage.click_search_button : harness.

(** X7: once the search field is found and has taken the text,
    [input_search_field] waits for the result cards with a timeout of 3 and
    clicks the first of them.  An empty list of cards ends with
    [IndexError], a wait that times out with [AssertionError], any other
    failure of the wait with that failure; in these cases nothing is
    clicked. *)
Theorem input_search_field_clicks_the_first_result :
  forall (driver : WebDriver) (text : string) (s : State) (field : WebElement),
    until_element driver (trace s) 10%Q
      (visibility_of_element_located (tuple_of HomePage.search_field)) = Ret field ->
    command driver (trace s ++ [search_field_wait]) (send_keys field [Chars text]) = Ret tt ->
    let op := HomePage.input_search_field driver text s in
    let typed := trace s ++ [search_field_wait; send_keys field [Chars text]] in
    match
      until_elements driver typed 3%Q
        (presence_of_all_elements_located (tuple_of HomePage.search_result_elements))
    with
    | Ret (first :: _) =>
        fst op = command driver (typed ++ [search_results_wait]) (click first)
        /\ trace (snd op) = typed ++ [search_results_wait; click first]
    | Ret [] => fst op = Raise IndexError /\ trace (snd op) = typed ++ [search_results_wait]
    | Raise TimeoutException =>
        (exists msg, fst op = Raise (AssertionError msg))
        /\ trace (snd op) = typed ++ [search_results_wait]
    | Raise e => fst op = Raise e /\ trace (snd op) = typed ++ [search_results_wait]
    end.
Proof.
  intros driver text s field Hfield Htyped op typed. subst op typed.
  unfold search_field_wait, search_results_wait, tuple_of in *. cbn in Hfield, Htyped.
  run. change (or_default None) with 10%Q. rewrite Hfield. cbn. rewrite Htyped. cbn.
  rewrite <- !app_assoc. cbn [app].
  destruct (until_elements driver _ 3%Q _) as [[ | first rest] | e]; cbn;
    rewrite <- ?app_assoc; cbn [app].
  - split; reflexivity.
  - destruct (command driver _ (click first)); split; reflexivity.
  - destruct e; cbn; rewrite <- ?app_assoc; cbn [app]; try (split; reflexivity).
    split; [ eexists; reflexivity | reflexivity ].
Qed.

(** X7 on a driver that finds everything. *)
Lemma input_search_field_witness :
  fst (HomePage.input_search_field ready_driver "StarCraft II" initial)
    = command ready_driver
        ((trace initial
            ++ [search_field_wait; send_keys (Element 1) [Chars "StarCraft II"]])
           ++ [search_results_wait])
        (click (Element 1))
  /\ trace (snd (HomePage.input_search_field ready_driver "StarCraft II" initial))
     = (trace initial ++ [search_field_wait; send_keys (Element 1) [Chars "StarCraft II"]])
         ++ [search_results_wait; click (Element 1)].
Proof.
  apply (input_search_field_clicks_the_first_result ready_driver "StarCraft II" initial
           (Element 1)); reflexivity.
Defined.

(** X8: when the start-watching button does not show within 5,
    [wait_video_starting] clicks nothing and does not fail for it: it goes on
    to wait for the live label to be present and then, only if it is, to be
    visible, each with the default timeout of 10.  Its outcome is the outcome
    of these two waits. *)
Theorem wait_video_starting_without_interstitial :
  forall (driver : WebDriver) (s : State),
    until_element driver (trace s) 5%Q
      (visibility_of_element_located (tuple_of HomePage.start_watching_button))
      = Raise TimeoutException ->
    let op := HomePage.wait_video_starting driver s in
    match
      until_element driver (trace s ++ [start_watching_wait]) 10%Q
        (presence_of_element_located (tuple_of HomePage.stream_live_label))
    with
    | Ret _ =>
        trace (snd op)
          = trace s ++ [start_watching_wait; live_label_present_wait; live_label_visible_wait]
        /\ match
             until_element driver
               (trace s ++ [start_watching_wait; live_label_present_wait]) 10%Q
               (visibility_of_element_located (tuple_of HomePage.stream_live_label))
           with
           | Ret _ => fst op = Ret tt
           | Raise TimeoutException => exists msg, fst op = Raise (AssertionError msg)
           | Raise e => fst op = Raise e
           end
    | Raise TimeoutException =>
        (exists msg, fst op = Raise (AssertionError msg))
        /\ trace (snd op) = trace s ++ [start_watching_wait; live_label_present_wait]
    | Raise e =>
        fst op = Raise e
        /\ trace (snd op) = trace s ++ [start_watching_wait; live_label_present_wait]
    end.
Proof.
  intros driver s Hgate op. subst op.
  unfold start_watching_wait, live_label_present_wait, live_label_visible_wait, tuple_of in *.
  cbn in Hgate. run. rewrite Hgate. cbn -[or_default].
  change (or_default None) with 10%Q.
  destruct (until_element driver (trace s ++ _) 10%Q (presence_of_element_located _))
    as [label | e]; cbn.
  - rewrite <- !app_assoc. cbn [app].
    destruct (until_element driver _ 10%Q (visibility_of_element_located _)) as [v | e];
      cbn; rewrite <- ?app_assoc; cbn [app].
    + split; reflexivity.
    + destruct e; cbn; rewrite <- ?app_assoc; cbn [app]; split; try reflexivity.
      eexists; reflexivity.
  - destruct e; cbn; rewrite <- ?app_assoc; cbn [app]; try (split; reflexivity).
    split; [ eexists; reflexivity | reflexivity ].
Qed.

(** X8 on a driver whose waits all time out: the operation fails at the
    presence wait. *)
Lemma wait_video_starting_witness :
  (exists msg, fst (HomePage.wait_video_starting timing_out_driver initial)
               = Raise (AssertionError msg))
  /\ trace (snd (HomePage.wait_video_starting timing_out_driver initial))
     = trace initial ++ [start_watching_wait; live_label_present_wait].
Proof.
  apply (wait_video_starting_without_interstitial timing_out_driver initial).
  reflexivity.
Defined.

(** X9: when the wait for the landmark fails, [scroll_home_screen] ends with
    that failure, an [AssertionError] for a timeout, and neither pauses nor
    scrolls: the wait is the only call it has issued. *)
Theorem scroll_home_screen_stops_at_a_missing_landmark :
  forall (driver : WebDriver) (times : Z) (s : State) (e : exn),
    until_element driver (trace s) 7%Q
      (presence_of_element_located (tuple_of HomePage.folow_button)) = Raise e ->
    trace (snd (HomePage.scroll_home_screen driver times s)) = trace s ++ [landmark_wait]
    /\ match e with
       | TimeoutException =>
           exists msg, fst (HomePage.scroll_home_screen driver times s)
                       = Raise (AssertionError msg)
       | _ => fst (HomePage.scroll_home_screen driver times s) = Raise e
       end.
Proof.
  intros driver times s e H.
  unfold HomePage.scroll_home_screen, get_present_element, by_value, time_sleep,
    WebDriverWait_until, try_except, timed_out, logging_info, logging_error, bind, ret, raise.
  unfold landmark_wait, tuple_of in *. cbn in H.
  cbn -[HomePage.for_range scroll_down]. rewrite H.
  destruct e; cbn; split; try reflexivity. eexists; reflexivity.
Qed.

(** X9 on a driver whose waits time out, for the two scrolls of the test. *)
Lemma scroll_home_screen_missing_landmark_witness :
  trace (snd (HomePage.scroll_home_screen timing_out_driver 2 initial))
    = trace initial ++ [landmark_wait]
  /\ exists msg, fst (HomePage.scroll_home_screen timing_out_driver 2 initial)
                 = Raise (AssertionError msg).
Proof.
  apply (scroll_home_screen_stops_at_a_missing_landmark timing_out_driver 2 initial
           TimeoutException).
  reflexivity.
Defined.

(** X10: a count of scrolls that is zero or negative asks for no scroll:
    once the landmark is present, [scroll_home_screen] returns after the wait
    and the pause, whatever the driver would have answered to a script. *)
Theorem scroll_home_screen_with_no_scroll :
  forall (driver : WebDriver) (times : Z) (s : State) (landmark : WebElement),
    (times <= 0)%Z ->
    until_element driver (trace s) 7%Q
      (presence_of_element_located (tuple_of HomePage.folow_button)) = Ret landmark ->
    fst (HomePage.scroll_home_screen driver times s) = Ret tt
    /\ trace (snd (HomePage.scroll_home_screen driver times s))
       = trace s ++ [landmark_wait; sleep 2%Q].
Proof.
  intros driver times s landmark Hneg H.
  unfold HomePage.scroll_home_screen, get_present_element, by_value, time_sleep,
    WebDriverWait_until, try_except, timed_out, logging_info, logging_error, bind, ret, raise.
  unfold landmark_wait, tuple_of in *. cbn in H.
  cbn -[HomePage.for_range scroll_down Z.to_nat]. rewrite H.
  replace (Z.to_nat times) with 0 by lia.
  cbn. rewrite <- app_assoc. split; reflexivity.
Qed.

(** X10 for a negative count, on a driver that finds the landmark. *)
Lemma scroll_home_screen_with_no_scroll_witness :
  fst (HomePage.scroll_home_screen get_failing_driver (-3) initial) = Ret tt
  /\ trace (snd (HomePage.scroll_home_screen get_failing_driver (-3) initial))
     = trace initial ++ [landmark_wait; sleep 2%Q].
Proof.
  apply (scroll_home_screen_with_no_scroll get_failing_driver (-3) initial (Element 1)).
  - lia.
  - reflexivity.
Defined.

(** X11: when the start-watching button shows within 5 and reports itself
    displayed, [wait_video_starting] looks the button up again, now with the
    default timeout of 10, and clicks the element of this second lookup.  If
    the second lookup times out, the operation fails with [AssertionError]
    and the live label is not waited for. *)
Theorem wait_video_starting_clicks_the_interstitial :
  forall (driver : WebDriver) (s : State) (shown : WebElement),
    until_element driver (trace s) 5%Q
      (visibility_of_element_located (tuple_of HomePage.start_watching_button)) = Ret shown ->
    displayed driver (trace s ++ [start_watching_wait]) shown = Ret true ->
    let op := HomePage.wait_video_starting driver s in
    let probed := trace s ++ [start_watching_wait; is_displayed shown] in
    let again :=
      until 10%Q (visibility_of_element_located (tuple_of HomePage.start_watching_button)) in
    match
      until_element driver probed 10%Q
        (visibility_of_element_located (tuple_of HomePage.start_watching_button))
    with
    | Ret button =>
        exists rest : list Call,
          trace (snd op) = probed ++ [again; click button] ++ rest
          /\ forallb is_until rest = true
    | Raise TimeoutException =>
        (exists msg, fst op = Raise (AssertionError msg))
        /\ trace (snd op) = probed ++ [again]
    | Raise e => fst op = Raise e /\ trace (snd op) = probed ++ [again]
    end.
Proof.
  intros driver s shown Hshown Hdisplayed op probed again. subst op probed again.
  unfold start_watching_wait, tuple_of in *. cbn in Hshown, Hdisplayed.
  run. rewrite Hshown. cbn -[or_default]. rewrite Hdisplayed. cbn -[or_default].
  change (or_default None) with 10%Q.
  rewrite <- ?app_assoc; cbn [app].
  destruct (until_element driver _ 10%Q (visibility_of_element_located _)) as [button | e];
    cbn; rewrite <- ?app_assoc; cbn [app].
  - destruct (command driver _ (click button)) as [[] | e]; cbn;
      rewrite <- ?app_assoc; cbn [app].
    + destruct (until_element driver _ 10%Q (presence_of_element_located _)) as [l1 | e];
        cbn; rewrite <- ?app_assoc; cbn [app].
      * destruct (until_element driver _ 10%Q (visibility_of_element_located _)) as [l2 | e];
          [ | destruct e ]; cbn; rewrite <- ?app_assoc; cbn [app];
          eexists [_; _];
          (split; [ rewrite <- ?app_assoc; cbn [app]; reflexivity | reflexivity ]).
      * destruct e; cbn; rewrite <- ?app_assoc; cbn [app]; eexists [_];
          (split; [ rewrite <- ?app_assoc; cbn [app]; reflexivity | reflexivity ]).
    + exists []. split; [ rewrite <- ?app_assoc; cbn [app]; reflexivity | reflexivity ].
  - destruct e; cbn; rewrite <- ?app_assoc; cbn [app]; try (split; reflexivity).
    split; [ eexists; reflexivity | reflexivity ].
Qed.

(** X11 on a driver that finds everything. *)
Lemma wait_video_starting_interstitial_witness :
  exists rest : list Call,
    trace (snd (HomePage.wait_video_starting ready_driver initial))
      = (trace initial ++ [start_watching_wait; is_displayed (Element 1)])
          ++ [until 10%Q
                (visibility_of_element_located (tuple_of HomePage.start_watching_button));
              click (Element 1)] ++ rest
    /\ forallb is_until rest = true.
Proof.
  apply (wait_video_starting_clicks_the_interstitial ready_driver initial (Element 1));
    reflexivity.
Defined.

(** * Further properties of the browser factory *)

(** X12: [browser_driver] takes [chrome] in any casing and refuses every
    other name.  For Chrome it first installs the driver binary and then
    starts Chrome once; the options it starts Chrome with hold the argument
    [--headless] exactly when a headless browser is asked for, and the
    mobile emulation of the device exactly when a device name that is not
    empty is given; when the installation fails, its failure is the outcome
    and Chrome is not started.  For another name it logs the error and
    raises an [Exception] that names the browser, and it installs nothing
    and starts nothing. *)
Theorem browser_driver_starts_chrome_or_refuses :
  forall (driver : WebDriver) (browser_name : string) (is_headless : bool)
         (device : option string) (s : State),
    let op := Browser.browser_driver driver browser_name is_headless device s in
    if String.eqb (Browser.lower browser_name) "chrome"
    then
      match command driver (trace s) ChromeDriverManager_install with
      | Ret _ =>
          fst op
            = command driver (trace s ++ [ChromeDriverManager_install])
                (webdriver_Chrome (chrome_options is_headless device))
          /\ trace (snd op)
             = trace s ++ [ChromeDriverManager_install;
                           webdriver_Chrome (chrome_options is_headless device)]
      | Raise e =>
          fst op = Raise e /\ trace (snd op) = trace s ++ [ChromeDriverManager_install]
      end
    else
      op = (Raise (Exception [Lit "Unsupported browser "; FmtStr browser_name]),
            logged ERROR [Lit "Browser: Unsupported browser "; FmtStr browser_name] s).
Proof.
  intros driver browser_name is_headless device s op. subst op.
  unfold Browser.browser_driver.
  destruct (String.eqb (Browser.lower browser_name) "chrome"); [ | reflexivity ].
  unfold Browser.chrome, chrome_options.
  destruct device as [[ | c name] | ]; destruct is_headless; run;
    (destruct (command driver (trace s) ChromeDriverManager_install) as [[] | e]; cbn;
     [ rewrite <- ?app_assoc; cbn [app];
       destruct (command driver _ (webdriver_Chrome _)); split; reflexivity
     | split; reflexivity ]).
Qed.


(** * Further properties of the fixtures *)

(** X13: when the code of the [driver] fixture before its [yield] raises,
    be it the installation, the start of Chrome or the opening of the page,
    the session reports a setup error, the test is not run, and no [quit]
    is issued: a browser that was started before the failure stays open. *)
Theorem setup_failure_runs_no_test_and_no_quit :
  forall (driver : WebDriver) (env_config : EnvConfig) (config : Namespace) (device : string)
         (test : UI -> M unit) (s s1 : State) (e : exn),
    driver_before_yield driver device config (args env_config config) s = (Raise e, s1) ->
    session driver env_config config device test s
    = ({| setup_outcome := Raise e; call_outcome := None; teardown_outcome := None |}, s1)
    /\ quits (trace s1) = quits (trace s).
Proof.
  intros driver env_config config device test s s1 e H.
  split.
  - unfold session, run_with_fixture. rewrite H. reflexivity.
  - pose proof (never_quits_driver_before_yield driver device config
                  (args env_config config) s) as Q.
    rewrite H in Q. exact Q.
Qed.

(** X13 on a driver that starts Chrome and then fails to open the page. *)
Lemma setup_failure_witness :
  exists s1 : State,
    session get_failing_driver sample_env_config (defaults pytest_addoption) "iPhone X"
      (fun _ => ret tt) initial
    = ({| setup_outcome := Raise WebDriverException;
          call_outcome := None;
          teardown_outcome := None |}, s1)
    /\ quits (trace s1) = quits (trace initial)
    /\ In (webdriver_Chrome (chrome_options false (Some "iPhone X"))) (trace s1).
Proof.
  eexists.
  pose proof (setup_failure_runs_no_test_and_no_quit get_failing_driver sample_env_config
                (defaults pytest_addoption) "iPhone X" (fun _ => ret tt) initial _
                WebDriverException eq_refl) as [S Q].
  split; [ exact S | ]. split; [ exact Q | ].
  cbn. auto.
Defined.

(** The names listed for a devices file are as many as its records, in
    their order. *)
Lemma device_names_of_complete_records :
  forall (file : devices.DevicesConfig) (names : list PyVal),
    devices.device_names file = inr names ->
    length names = length file
    /\ forall (i : nat) (record : list (string * string)),
         nth_error file i = Some record ->
         exists name : string,
           nth_error names i = Some (VStr name)
           /\ dict_get record "device_name" EmptyString = name
           /\ existsb (fun kv => String.eqb (fst kv) "device_name") record = true.
Proof.
  induction file as [ | record file IH]; intros names H; cbn in H.
  - injection H as <-. split; [ reflexivity | ]. intros [ | i] r N; discriminate.
  - destruct (find (fun kv => String.eqb (fst kv) "device_name") record) as [[k name] | ] eqn:F;
      [ | discriminate ].
    destruct (devices.device_names file) as [f | rest]; [ discriminate | ].
    injection H as <-. destruct (IH rest eq_refl) as [L N].
    split; [ cbn; rewrite L; reflexivity | ].
    intros [ | i] r Hr; cbn in Hr.
    + injection Hr as <-. exists name. cbn. unfold dict_get. rewrite F.
      split; [ reflexivity | ]. split; [ reflexivity | ].
      apply existsb_exists. exists (k, name). split.
      * apply (find_some _ _ F).
      * apply (find_some _ _ F).
    + cbn. apply N. exact Hr.
Qed.

(** X14: a device name given on the command line, if it is not empty, is
    the only device of the run, and the devices file is then not read: the
    answer is the same whether the file loads or not.  Without a device on
    the command line, or with an empty one, the run has one device per
    record of the devices file, in the order of the file, each the
    [device_name] of its record; a file that cannot be read and a record
    without the key make the enumeration fail. *)
Theorem devices_of_a_run :
  forall (config : Namespace) (loaded : option devices.DevicesConfig),
    if truthy (getoption config "--device_name")
    then devices.get_devices_list config loaded = inr [getoption config "--device_name"]
    else
      match loaded with
      | None => devices.get_devices_list config loaded = inl devices.LoadError
      | Some file =>
          match devices.get_devices_list config loaded with
          | inr names =>
              length names = length file
              /\ forall (i : nat) (record : list (string * string)),
                   nth_error file i = Some record ->
                   exists name : string,
                     nth_error names i = Some (VStr name)
                     /\ dict_get record "device_name" EmptyString = name
                     /\ existsb (fun kv => String.eqb (fst kv) "device_name") record = true
          | inl failure =>
              failure = devices.KeyError
              /\ exists record : list (string * string),
                   In record file
                   /\ existsb (fun kv => String.eqb (fst kv) "device_name") record = false
          end
      end.
Proof.
  intros config loaded. unfold devices.get_devices_list. cbv zeta.
  destruct (truthy (getoption config "--device_name")); [ reflexivity | ].
  destruct loaded as [file | ]; [ | reflexivity ].
  destruct (devices.device_names file) as [failure | names] eqn:D.
  - revert failure D.
    induction file as [ | record file IH]; intros failure D; cbn in D; [ discriminate | ].
    destruct (find (fun kv => String.eqb (fst kv) "device_name") record) as [[k name] | ] eqn:F.
    + destruct (devices.device_names file) as [f | rest]; [ | discriminate ].
      injection D as <-. destruct (IH f eq_refl) as [K [r [I E]]].
      split; [ exact K | ]. exists r. split; [ right; exact I | exact E ].
    + injection D as <-. split; [ reflexivity | ].
      exists record. split; [ left; reflexivity | ].
      destruct (existsb _ record) eqn:X; [ | reflexivity ].
      apply existsb_exists in X. destruct X as [kv [I E]].
      pose proof (find_none _ _ F kv I) as N. cbn in N. congruence.
  - apply device_names_of_complete_records. exact D.
Qed.

(** X15: an environment name that the environment table does not list gives
    the session an empty address: [args] finds no record for it and falls
    back to the empty string for [url]. *)
Theorem unlisted_environment_has_an_empty_url :
  forall (env_config : EnvConfig) (config : Namespace) (name : string),
    getoption config "--environment" = VStr name ->
    (forall record, ~ In (name, record) env_config) ->
    load_environment_config env_config (getoption config "--environment") = []
    /\ args_url (args env_config config) = EmptyString
    /\ forall device : string, url (ui (args env_config config) device) = EmptyString.
Proof.
  intros env_config config name E H.
  assert (L : load_environment_config env_config (getoption config "--environment") = []).
  { rewrite E. unfold load_environment_config, dict_get.
    destruct (find (fun kv => String.eqb (fst kv) name) env_config) as [[k record] | ] eqn:F;
      [ | reflexivity ].
    exfalso. destruct (find_some _ _ F) as [I K]. cbn in K.
    apply String.eqb_eq in K. subst k. exact (H record I). }
  split; [ exact L | ].
  unfold ui, args. cbn. rewrite L. split; [ reflexivity | intros device; reflexivity ].
Qed.

(** X15 for the environment production and a table that lists staging
    only. *)
Lemma unlisted_environment_witness :
  load_environment_config sample_env_config
    (getoption (set_option "--environment" (VStr "production") (defaults pytest_addoption))
       "--environment") = []
  /\ args_url (args sample_env_config
                 (set_option "--environment" (VStr "production") (defaults pytest_addoption)))
     = EmptyString
  /\ forall device : string,
       url (ui (args sample_env_config
                  (set_option "--environment" (VStr "production")
                     (defaults pytest_addoption)))
               device) = EmptyString.
Proof.
  apply (unlisted_environment_has_an_empty_url sample_env_config
           (set_option "--environment" (VStr "production") (defaults pytest_addoption))
           "production").
  - reflexivity.
  - intros record [I | []]. discriminate.
Defined.

(** * Further properties of the test *)

(** X16: when the home page does not count as loaded, the probe answering
    [False], the test fails at its first assertion with the message of that
    assertion, and has issued no call beyond those of the probe: nothing is
    clicked and no screenshot is taken. *)
Theorem test_fails_when_the_page_is_not_loaded :
  forall (driver : WebDriver) (randbelow : nat -> nat -> nat) (now : list Call -> string)
         (ui : UI) (s : State),
    fst (HomePage.is_page_loaded driver s) = Ret false ->
    TestTwitchSearch.test_search_starcraft_streamer driver randbelow now ui s
    = (Raise (AssertionError [Lit "Twitch home page did not load properly."]),
       snd (HomePage.is_page_loaded driver s)).
Proof.
  intros driver randbelow now ui s H.
  unfold TestTwitchSearch.test_search_starcraft_streamer.
  unfold bind at 1.
  destruct (HomePage.is_page_loaded driver s) as [r s1]. cbn in H. subst r.
  reflexivity.
Qed.

(** X16 on a driver whose waits time out: the only call is the wait for the
    logo. *)
Lemma test_fails_when_the_page_is_not_loaded_witness :
  TestTwitchSearch.test_search_starcraft_streamer timing_out_driver (fun _ _ => 0)
    (fun _ => "2024-05-06 07:08:09.123456")
    {| device_name := "iPhone X"; environment := VStr "staging"; url := EmptyString |}
    initial
  = (Raise (AssertionError [Lit "Twitch home page did not load properly."]),
     snd (HomePage.is_page_loaded timing_out_driver initial)).
Proof.
  apply (test_fails_when_the_page_is_not_loaded timing_out_driver).
  reflexivity.
Defined.

(** Issuing calls other than [save_screenshot] and composing such
    computations takes no screenshot. *)
Lemma takes_no_screenshot_ret : forall (A : Type) (a : A), takes_no_screenshot (ret a).
Proof. intros A a s. exists []. cbn. rewrite app_nil_r. split; reflexivity. Qed.

Lemma takes_no_screenshot_raise : forall (A : Type) (e : exn), takes_no_screenshot (@raise A e).
Proof. intros A e s. exists []. cbn. rewrite app_nil_r. split; reflexivity. Qed.

Lemma takes_no_screenshot_logging_info :
  forall msg : message, takes_no_screenshot (logging_info msg).
Proof. intros msg s. exists []. cbn. rewrite app_nil_r. split; reflexivity. Qed.

Lemma takes_no_screenshot_logging_error :
  forall msg : message, takes_no_screenshot (logging_error msg).
Proof. intros msg s. exists []. cbn. rewrite app_nil_r. split; reflexivity. Qed.

Lemma takes_no_screenshot_bind :
  forall (A B : Type) (m : M A) (k : A -> M B),
    takes_no_screenshot m -> (forall a, takes_no_screenshot (k a)) ->
    takes_no_screenshot (bind m k).
Proof.
  intros A B m k Hm Hk s. unfold bind.
  destruct (Hm s) as [c1 [T1 F1]]. destruct (m s) as [[a | e] s1]; cbn in *.
  - destruct (Hk a s1) as [c2 [T2 F2]]. exists (c1 ++ c2).
    rewrite T2, T1, app_assoc, filter_app, F1, F2. split; reflexivity.
  - exists c1. split; assumption.
Qed.

Lemma takes_no_screenshot_try_except :
  forall (A : Type) (m : M A) (catches : exn -> bool) (handler : M A),
    takes_no_screenshot m -> takes_no_screenshot handler ->
    takes_no_screenshot (try_except m catches handler).
Proof.
  intros A m catches handler Hm Hh s. unfold try_except.
  destruct (Hm s) as [c1 [T1 F1]]. destruct (m s) as [[a | e] s1]; cbn in *.
  - exists c1. split; assumption.
  - destruct (catches e).
    + destruct (Hh s1) as [c2 [T2 F2]]. exists (c1 ++ c2).
      rewrite T2, T1, app_assoc, filter_app, F1, F2. split; reflexivity.
    + exists c1. split; assumption.
Qed.

Lemma takes_no_screenshot_call :
  forall (A : Type) (c : State -> Call) (answer : State -> result A),
    (forall s, is_save_screenshot (c s) = false) ->
    takes_no_screenshot (fun s => (answer s, issued (c s) s)).
Proof.
  intros A c answer H s. exists [c s]. cbn. rewrite H. split; reflexivity.
Qed.

Lemma takes_no_screenshot_choice :
  forall (A : Type) (randbelow : nat -> nat -> nat) (seq : list A),
    takes_no_screenshot (random.choice randbelow seq).
Proof.
  intros A randbelow seq s. exists []. unfold random.choice.
  destruct seq; [ | destruct (nth_error _ _) ]; cbn; rewrite app_nil_r; split; reflexivity.
Qed.

Lemma takes_no_screenshot_for_range :
  forall (n : nat) (body : M unit),
    takes_no_screenshot body -> takes_no_screenshot (HomePage.for_range n body).
Proof.
  induction n as [ | n IH]; intros body H; cbn.
  - apply takes_no_screenshot_ret.
  - apply takes_no_screenshot_bind; [ exact H | intros _; apply IH; exact H ].
Qed.

Ltac no_screenshot :=
  repeat first
    [ apply takes_no_screenshot_ret
    | apply takes_no_screenshot_raise
    | apply takes_no_screenshot_logging_info
    | apply takes_no_screenshot_logging_error
    | apply takes_no_screenshot_choice
    | apply takes_no_screenshot_for_range
    | apply takes_no_screenshot_bind; [ | intros ? ]
    | apply takes_no_screenshot_try_except
    | apply (takes_no_screenshot_call _ (fun _ => _)); intros ?; reflexivity
    | apply takes_no_screenshot_call; intros ?; reflexivity
    | match goal with
      | |- takes_no_screenshot (if ?b then _ else _) => destruct b
      | |- takes_no_screenshot (match ?x with _ => _ end) => destruct x
      end ].

(** The page actions of the home page take no screenshot. *)
Lemma takes_no_screenshot_element :
  forall driver locator element timeout show,
    takes_no_screenshot (__element driver locator element timeout show).
Proof.
  intros. unfold __element, get_visible_element, as_tuple, by_value, timed_out,
    WebDriverWait_until. cbv zeta. no_screenshot.
Qed.

Lemma takes_no_screenshot_get_present_element :
  forall driver locator timeout show,
    takes_no_screenshot (get_present_element driver locator timeout show).
Proof.
  intros. unfold get_present_element, by_value, timed_out, WebDriverWait_until.
  cbv zeta. no_screenshot.
Qed.

Lemma takes_no_screenshot_get_visible_element :
  forall driver locator timeout show,
    takes_no_screenshot (get_visible_element driver locator timeout show).
Proof.
  intros. unfold get_visible_element, as_tuple, by_value, timed_out, WebDriverWait_until.
  cbv zeta. no_screenshot.
Qed.

Lemma takes_no_screenshot_get_present_elements_list :
  forall driver locator timeout show,
    takes_no_screenshot (get_present_elements_list driver locator timeout show).
Proof.
  intros. unfold get_present_elements_list, by_value, timed_out, WebDriverWait_until_all.
  cbv zeta. no_screenshot.
Qed.

Lemma takes_no_screenshot_element_is_displayed :
  forall driver locator element timeout,
    takes_no_screenshot (element_is_displayed driver locator element timeout).
Proof.
  intros. unfold element_is_displayed. cbv zeta. no_screenshot.
  apply takes_no_screenshot_element.
Qed.

Lemma takes_no_screenshot_click_element :
  forall driver locator element timeout,
    takes_no_screenshot (click_element driver locator element timeout).
Proof.
  intros. unfold click_element, do. cbv zeta. no_screenshot.
  apply takes_no_screenshot_element.
Qed.

Lemma takes_no_screenshot_input_to_element :
  forall driver locator element keys timeout log_input,
    takes_no_screenshot (input_to_element driver locator element keys timeout log_input).
Proof.
  intros. unfold input_to_element, do. cbv zeta. no_screenshot.
  apply takes_no_screenshot_element.
Qed.

Lemma takes_no_screenshot_execute_script :
  forall driver script args, takes_no_screenshot (execute_script driver script args).
Proof.
  intros. unfold execute_script, do. no_screenshot.
Qed.

Lemma takes_no_screenshot_scroll_into_element_center :
  forall driver locator element timeout,
    takes_no_screenshot (scroll_into_element_center driver locator element timeout).
Proof.
  intros. unfold scroll_into_element_center, execute_script, do. cbv zeta. no_screenshot.
  apply takes_no_screenshot_element.
Qed.

(** X17: the test asks for a screenshot at most once, and then as its very
    last call, after every step before it has passed; a test that stops
    earlier ends with an exception and has asked for none.  The name asked
    for is the sanitized name with the extension [.png], built from the
    device, the environment and the clock read at that point. *)
Theorem screenshot_is_the_last_call_of_the_test :
  forall (driver : WebDriver) (randbelow : nat -> nat -> nat) (now : list Call -> string)
         (ui : UI) (s : State),
  exists calls : list Call,
    let run := TestTwitchSearch.test_search_starcraft_streamer driver randbelow now ui s in
    trace (snd run) = trace s ++ calls
    /\ ((filter is_save_screenshot calls = [] /\ exists e, fst run = Raise e)
        \/ (exists before : list Call,
               calls
               = before
                   ++ [save_screenshot
                         (TestTwitchSearch.screenshot_name (device_name ui)
                            (py_str (environment ui)) (now (trace s ++ before)))]
               /\ filter is_save_screenshot before = []
               /\ fst run
                  = command driver (trace s ++ before)
                      (save_screenshot
                         (TestTwitchSearch.screenshot_name (device_name ui)
                            (py_str (environment ui)) (now (trace s ++ before)))))).
Proof.
  intros driver randbelow now ui s.
  set (Last := fun m : M unit =>
    forall s0 : State,
    exists calls : list Call,
      trace (snd (m s0)) = trace s0 ++ calls
      /\ ((filter is_save_screenshot calls = [] /\ exists e, fst (m s0) = Raise e)
          \/ (exists before : list Call,
                 calls
                 = before
                     ++ [save_screenshot
                           (TestTwitchSearch.screenshot_name (device_name ui)
                              (py_str (environment ui)) (now (trace s0 ++ before)))]
                 /\ filter is_save_screenshot before = []
                 /\ fst (m s0)
                    = command driver (trace s0 ++ before)
                        (save_screenshot
                           (TestTwitchSearch.screenshot_name (device_name ui)
                              (py_str (environment ui)) (now (trace s0 ++ before))))))).
  assert (Step : forall (A : Type) (m : M A) (k : A -> M unit),
             takes_no_screenshot m -> (forall a, Last (k a)) -> Last (bind m k)).
  { intros A m k Hm Hk s0. unfold bind.
    destruct (Hm s0) as [c1 [T1 F1]]. destruct (m s0) as [[a | e] s1]; cbn in *.
    - destruct (Hk a s1) as [c2 [T2 [[F2 [e R]] | [before [C [F R]]]]]].
      + exists (c1 ++ c2). rewrite T2, T1, app_assoc. split; [ reflexivity | ].
        left. rewrite filter_app, F1, F2. split; [ reflexivity | exists e; exact R ].
      + exists (c1 ++ c2). rewrite T2, T1, app_assoc. split; [ reflexivity | ].
        right. exists (c1 ++ before). rewrite T1 in C, R. rewrite <- app_assoc in C, R.
        rewrite C, app_assoc, filter_app, F1, F, <- app_assoc.
        split; [ reflexivity | ]. split; [ reflexivity | exact R ].
    - exists c1. split; [ exact T1 | ]. left. split; [ exact F1 | exists e; reflexivity ]. }
  assert (Whole : Last (TestTwitchSearch.test_search_starcraft_streamer driver randbelow now ui)).
  { unfold TestTwitchSearch.test_search_starcraft_streamer,
      HomePage.is_page_loaded, HomePage.click_search_button, HomePage.input_search_field,
      HomePage.scroll_home_screen, HomePage.click_random_stream, HomePage.wait_video_starting,
      scroll_down, time_sleep.
    repeat (apply Step;
            [ no_screenshot;
              first [ apply takes_no_screenshot_element_is_displayed
                    | apply takes_no_screenshot_click_element
                    | apply takes_no_screenshot_input_to_element
                    | apply takes_no_screenshot_get_present_elements_list
                    | apply takes_no_screenshot_get_present_element
                    | apply takes_no_screenshot_get_visible_element
                    | apply takes_no_screenshot_execute_script
                    | apply takes_no_screenshot_scroll_into_element_center ]
            | intros ? ]).
    intros s0. eexists [_]. cbn. split; [ reflexivity | ].
    right. exists []. rewrite !app_nil_r. repeat split; reflexivity. }
  exact (Whole s).
Qed.

(** * Further properties of the name of the screenshot *)

Lemma sub_scan_is_word :
  forall (s : string) (in_run : bool), all_chars re.is_word (re.sub_scan in_run s) = true.
Proof.
  induction s as [ | c s IH]; intros in_run; cbn; [ reflexivity | ].
  destruct (re.is_word c) eqn:W.
  - cbn. rewrite W. apply IH.
  - destruct in_run; cbn; apply IH.
Qed.

Lemma sub_scan_of_words :
  forall (s : string) (in_run : bool),
    all_chars re.is_word s = true -> re.sub_scan in_run s = s.
Proof.
  induction s as [ | c s IH]; intros in_run H; cbn in *; [ reflexivity | ].
  apply andb_prop in H. destruct H as [W Hs]. rewrite W. f_equal. apply IH. exact Hs.
Qed.

(** X18: whatever the device, the environment and the timestamp hold, ASCII
    or not, the cleaned name holds only characters that [\w] matches, and
    cleaning it again changes nothing. *)
Theorem cleaning_is_idempotent :
  forall device environment now : string,
    all_chars re.is_word (TestTwitchSearch.cleaned_filename device environment now) = true
    /\ re.sub_nonword_underscore (TestTwitchSearch.cleaned_filename device environment now)
       = TestTwitchSearch.cleaned_filename device environment now.
Proof.
  intros device environment now.
  unfold TestTwitchSearch.cleaned_filename, re.sub_nonword_underscore.
  split; [ apply sub_scan_is_word | ].
  apply sub_scan_of_words. apply sub_scan_is_word.
Qed.

Lemma sub_scan_length :
  forall (s : string) (in_run : bool),
    String.length (re.sub_scan in_run s) <= String.length s.
Proof.
  induction s as [ | c s IH]; intros in_run; cbn; [ lia | ].
  destruct (re.is_word c); [ | destruct in_run ]; cbn;
    [ specialize (IH false) | specialize (IH true) | specialize (IH true) ]; lia.
Qed.

Lemma sub_scan_keeps_a_word_character :
  forall (a : string) (c : ascii) (rest : string) (in_run : bool),
    re.is_word c = true ->
    S (String.length (re.sub_scan false rest))
    <= String.length (re.sub_scan in_run (a ++ String c rest)).
Proof.
  induction a as [ | x a IH]; intros c rest in_run W; cbn.
  - rewrite W. cbn. lia.
  - destruct (re.is_word x); [ | destruct in_run ]; cbn;
      [ specialize (IH c rest false W)
      | specialize (IH c rest true W)
      | specialize (IH c rest true W) ]; lia.
Qed.

(** X19: the two underscores of the name pattern survive the cleaning, so
    the cleaned name has at least two characters, whatever the three parts
    are, empty ones included; and the cleaning never makes the name
    longer. *)
Theorem cleaned_name_length_bounds :
  forall device environment now : string,
    2 <= String.length (TestTwitchSearch.cleaned_filename device environment now)
    /\ String.length (TestTwitchSearch.cleaned_filename device environment now)
       <= String.length (TestTwitchSearch.filename device environment now).
Proof.
  intros device environment now.
  unfold TestTwitchSearch.cleaned_filename, re.sub_nonword_underscore.
  split; [ | apply sub_scan_length ].
  unfold TestTwitchSearch.filename. cbn [append].
  pose proof (sub_scan_keeps_a_word_character device "_"%char
                (environment ++ String "_" now) false eq_refl) as H1.
  pose proof (sub_scan_keeps_a_word_character environment "_"%char now false eq_refl) as H2.
  cbn [append] in H1. lia.
Qed.

(** * Hover and click, when the targets resolve *)

(** X20: [moveto_and_click_element] looks up the hover target first.  When
    that lookup fails, the click target is not looked up and nothing is
    performed.  When both targets resolve, one chain is performed and no
    other call follows: move to the hover target, then click the click
    target; the outcome of the chain is the outcome of the operation. *)
Theorem hover_and_click_performs_one_chain :
  forall (driver : WebDriver)
         (locator_to_move : PyLocator) (element_to_move : option WebElement)
         (timeout_to_move : option Q)
         (locator_to_click : PyLocator) (element_to_click : option WebElement)
         (timeout_to_click : option Q) (s : State),
    let op :=
      moveto_and_click_element driver locator_to_move element_to_move timeout_to_move
        locator_to_click element_to_click timeout_to_click s in
    match __element driver locator_to_move element_to_move timeout_to_move true s with
    | (Raise e, s1) => op = (Raise e, s1)
    | (Ret hovered, s1) =>
        match __element driver locator_to_click element_to_click timeout_to_click true s1 with
        | (Raise e, s2) => op = (Raise e, s2)
        | (Ret clicked, s2) =>
            let chain := perform [move_to_element hovered; chain_click clicked] in
            fst op = command driver (trace s2) chain
            /\ trace (snd op) = trace s2 ++ [chain]
            /\ exists waits : list Call,
                 trace s2 = trace s ++ waits
                 /\ forallb is_until waits = true
                 /\ length waits <= 2
        end
    end.
Proof.
  intros driver lm em tm lc ec tc s op. subst op.
  unfold moveto_and_click_element, bind.
  destruct (element_issues_at_most_one_wait driver lm em tm true s) as [w1 [T1 [U1 L1]]].
  destruct (__element driver lm em tm true s) as [[hovered | e] s1]; [ | reflexivity ].
  destruct (element_issues_at_most_one_wait driver lc ec tc true s1) as [w2 [T2 [U2 L2]]].
  destruct (__element driver lc ec tc true s1) as [[clicked | e] s2]; [ | reflexivity ].
  cbn in T1, T2 |- *.
  split; [ reflexivity | ]. split; [ reflexivity | ].
  exists (w1 ++ w2). rewrite T2, T1, app_assoc, forallb_app, U1, U2, length_app.
  split; [ reflexivity | ]. split; [ reflexivity | lia ].
Qed.

(** * A locator object handed to the wait unconverted *)

(** X21: [get_clickable_element], [get_visible_elements_list] and
    [wait_elements_invisibility] build their condition on the [Locator]
    object itself, where the other resolve operations build it on the pair
    (by, value).  Under selenium, which unpacks the locator of a condition,
    the three operations end with [TypeError] for every page, [Locator] and
    timeout, after the one wait, with no error entry whatever the flag; and
    since the probes catch timeouts and assertion errors only,
    [element_is_clickable] and [element_is_absent] raise it as well. *)
Theorem locator_object_ends_the_wait_with_type_error :
  forall (page : WebDriver) (l : Locator) (timeout : option Q) (show_error_logs : bool)
         (s : State),
    (forall r : Resolve,
        is_pair (resolve_locator r l) = false <->
        r = ClickableOne \/ r = VisibleList \/ r = Invisible)
    /\ (forall r : Resolve,
          is_pair (resolve_locator r l) = false ->
          fst (run_resolve (selenium page) r l timeout show_error_logs s) = Raise TypeError
          /\ trace (snd (run_resolve (selenium page) r l timeout show_error_logs s))
             = trace s ++ [until (or_default timeout) (resolve_condition r l)]
          /\ log (snd (run_resolve (selenium page) r l timeout true s))
             = log (snd (run_resolve (selenium page) r l timeout false s)))
    /\ (forall p : Probe,
          is_pair (condition_locator (probe_condition p l)) = false <->
          p = Clickable \/ p = Absent)
    /\ (forall p : Probe,
          is_pair (condition_locator (probe_condition p l)) = false ->
          fst (run_probe (selenium page) p l timeout s) = Raise TypeError).
Proof.
  intros page l timeout show_error_logs s.
  split; [ | split; [ | split ] ].
  - intros r. split.
    + destruct r; cbn; intros H; try discriminate; auto.
    + intros [-> | [-> | ->]]; reflexivity.
  - intros r H. destruct r; cbn in H; try discriminate; repeat split; reflexivity.
  - intros p. split.
    + destruct p; cbn; intros H; try discriminate; auto.
    + intros [-> | ->]; reflexivity.
  - intros p H. destruct p; cbn in H; try discriminate; reflexivity.
Qed.
